(** * ab_sniffer: the scoring orchestrator of the challenge endpoint

    A shallow embedding of [src/api/endpoints/challenge/{utils,service,router}.py].

    Conventions of the embedding.
    - Seconds ([time.time()], [time.monotonic()], timeouts) are rationals:
      Python's floats without their rounding.
    - The module-level globals of [service.py] ([detection_dict],
      [_driver_queue], [_driver_condition]) together with the wall clock and
      the log of calls made to the container engine form one [World]; every
      function that touches them is a computation in the monad [M], which
      threads the world and carries a raised Python exception.
    - Whatever lies outside the repository and cannot be computed from it
      (what the container engine answers, what the random generator draws,
      when HTTP threads post a driver while the scoring thread sleeps) is an
      explicit oracle argument.
    - Calls to [logger] have no effect on the world and are left out. *)

From Stdlib Require Import Ascii String QArith Lqa.
From stdpp Require Import gmap strings list fin_maps.

Set Default Proof Using "Type".

(** ** Python values and exceptions *)

Module py.

(** The exception classes the three files distinguish. *)
Inductive exn : Type :=
| AttributeError (msg : string)
| APIError (explanation : string)
| BaseHTTPException (detail : string)
| HTTPException (status_code : nat) (detail : string)
| Exception (msg : string).

(** [str(err)] *)
Definition str (e : exn) : string :=
  match e with
  | AttributeError m | APIError m | BaseHTTPException m
  | HTTPException _ m | Exception m => m
  end.

Inductive result (A : Type) : Type :=
| Ok (a : A)
| Raise (e : exn).
Arguments Ok {A} a.
Arguments Raise {A} e.

(** [str.isspace] on the ASCII range: TAB..CR, FS..US and the blank. *)
Definition isspace (c : ascii) : bool :=
  let n := nat_of_ascii c in
  ((9 <=? n) && (n <=? 13)) || ((28 <=? n) && (n <=? 32)).

Fixpoint lstrip (s : string) : string :=
  match s with
  | EmptyString => EmptyString
  | String c s' => if isspace c then lstrip s' else s
  end.

Fixpoint rstrip (s : string) : string :=
  match s with
  | EmptyString => EmptyString
  | String c s' =>
      match rstrip s' with
      | EmptyString => if isspace c then EmptyString else String c EmptyString
      | r => String c r
      end
  end.

(** [s.strip()] *)
Definition strip (s : string) : string := rstrip (lstrip s).

(** [x or ""] for an optional string. *)
Definition or_empty (x : option string) : string :=
  match x with
  | Some (String c s) => String c s
  | _ => EmptyString
  end.

(** [x or None] for a string. *)
Definition or_none (x : string) : option string :=
  match x with
  | EmptyString => None
  | _ => Some x
  end.

(** Truth value of an optional string ([if x:]). *)
Definition truthy (x : option string) : bool :=
  match x with
  | Some (String _ _) => true
  | _ => false
  end.

(** [max(a, b)]: the first argument unless the second is greater. *)
Definition max (a b : Q) : Q := if Qle_bool b a then a else b.

(** [a / b] on non-negative integers (true division). *)
Definition truediv (a b : nat) : Q :=
  (inject_Z (Z.of_nat a) / inject_Z (Z.of_nat b))%Q.

(** [d[k].append(x)] on a [defaultdict(list)]. *)
Definition dict_append `{Countable K} {A : Type}
    (k : K) (x : A) (d : gmap K (list A)) : gmap K (list A) :=
  <[k := default [] (d !! k) ++ [x]]> d.

(** [d.items()] and [d.values()].  A Python dict iterates in insertion
    order; the map iterates in the order of [map_to_list].  The functions
    below that iterate over a dict only count, so the order is immaterial
    (lemma [tally_regroup]). *)
Definition items `{Countable K} {A : Type} (d : gmap K A) : list (K * A) :=
  map_to_list d.
Definition values `{Countable K} {A : Type} (d : gmap K A) : list A :=
  (map_to_list d).*2.

End py.

(** ** Configuration and records *)

(** An entry of [config.challenge.framework_images]. *)
Record FrameworkEntry : Type := {
  framework_name : string;
  image : string;
}.

(** The fields of [config] the three files read.  The configuration module
    lies outside the three files, so its values are parameters. *)
Record Config : Type := {
  framework_images : list FrameworkEntry;
  repeated_framework_count : Z;
  bot_timeout : Q;
  pushcut_timeout : Q;
  docker_ulimit : Z;
  api_port : string;
}.

(** One entry of [detection_dict[index]]. *)
Record Detection : Type := {
  detected : bool;
  driver : string;
  predicted : string;
  execution_time : Q;
}.

(** [threading.Condition].  [cv_waiters] is the list of threads blocked in
    [wait()] (CPython keeps it in the private [_waiters]); each waiter is
    named by a number.  [post_driver] reads the attribute [waiters]; whether
    the object has one is not settled by the repository, so it is a field:
    with [exposes_waiters = false] the read raises [AttributeError]. *)
Record Condition : Type := {
  exposes_waiters : bool;
  cv_waiters : list nat;
}.

(** Calls to the container engine and to the host shell. *)
Inductive docker_call : Type :=
| NetworksList (name : string)
| NetworksCreate (name : string)
| NetworksGet (name : string)
| InspectNetwork (network_id : string)
| IptablesForwardDrop (subnet : string)
| IptablesNatReturn (subnet : string)
| DockerRmForce (container_name : string)
| ContainersRun (image_name container_name network_name web_url : string)
                (ulimit : Z)
| LogThreadStart
| ContainerWait (timeout : Q)
| ContainerStop (timeout : Q)
| ContainerRemove (force : bool).

Record World : Type := {
  detection_dict : gmap nat (list Detection);
  _driver_queue : list string;
  _driver_condition : Condition;
  clock : Q;
  docker_log : list docker_call;
}.

Definition set_detection_dict (d : gmap nat (list Detection)) (w : World) : World :=
  {| detection_dict := d; _driver_queue := _driver_queue w;
     _driver_condition := _driver_condition w; clock := clock w;
     docker_log := docker_log w |}.

Definition set_driver_queue (q : list string) (w : World) : World :=
  {| detection_dict := detection_dict w; _driver_queue := q;
     _driver_condition := _driver_condition w; clock := clock w;
     docker_log := docker_log w |}.

Definition set_waiters (ws : list nat) (w : World) : World :=
  {| detection_dict := detection_dict w; _driver_queue := _driver_queue w;
     _driver_condition :=
       {| exposes_waiters := exposes_waiters (_driver_condition w);
          cv_waiters := ws |};
     clock := clock w; docker_log := docker_log w |}.

Definition set_clock (t : Q) (w : World) : World :=
  {| detection_dict := detection_dict w; _driver_queue := _driver_queue w;
     _driver_condition := _driver_condition w; clock := t;
     docker_log := docker_log w |}.

Definition set_docker_log (l : list docker_call) (w : World) : World :=
  {| detection_dict := detection_dict w; _driver_queue := _driver_queue w;
     _driver_condition := _driver_condition w; clock := clock w;
     docker_log := l |}.

(** ** The monad of the scoring thread: world passing with exceptions *)

Definition M (A : Type) : Type := World → py.result A * World.

Definition ret {A : Type} (a : A) : M A := λ w, (py.Ok a, w).

Definition raise {A : Type} (e : py.exn) : M A := λ w, (py.Raise e, w).

Definition bind {A B : Type} (m : M A) (k : A → M B) : M B :=
  λ w, match m w with
       | (py.Ok a, w') => k a w'
       | (py.Raise e, w') => (py.Raise e, w')
       end.

(** [try: m  except Exception as err: handler err] *)
Definition try_except {A : Type} (m : M A) (handler : py.exn → M A) : M A :=
  λ w, match m w with
       | (py.Ok a, w') => (py.Ok a, w')
       | (py.Raise e, w') => handler e w'
       end.

(** [try: m  finally: fin], for a [fin] that raises nothing itself. *)
Definition try_finally {A : Type} (m : M A) (fin : M unit) : M A :=
  λ w, match m w with
       | (r, w') => (r, (fin w').2)
       end.

(** A world update that cannot fail. *)
Definition modify (f : World → World) : M unit := λ w, (py.Ok tt, f w).

(** Reading the world. *)
Definition gets {A : Type} (f : World → A) : M A := λ w, (py.Ok (f w), w).

Declare Scope py_scope.
Delimit Scope py_scope with py.
Notation "'let*' x ':=' m 'in' k" := (bind m (λ x, k))
  (at level 10, x name, m at level 100, k at level 200) : py_scope.
Notation "'run*' m 'in' k" := (bind m (λ _, k))
  (at level 10, m at level 100, k at level 200) : py_scope.
Local Open Scope py_scope.

(** [time.time()], [time.monotonic()] and [time.sleep(s)]. *)
Definition time_time : M Q := gets clock.
Definition time_monotonic : M Q := gets clock.
Definition time_sleep (s : Q) : M unit := modify (λ w, set_clock (clock w + s)%Q w).

(** ** utils.py *)

Module utils.

(** [range(n)] *)
Definition range (n : Z) : list nat := seq 0 (Z.to_nat n).

(** [x[i], x[j] = x[j], x[i]] *)
Definition swap {A : Type} (i j : nat) (x : list A) : list A :=
  match x !! i, x !! j with
  | Some xi, Some xj => <[j := xi]> (<[i := xj]> x)
  | _, _ => x
  end.

(** [random.shuffle(x)], the loop of CPython's [random.py]:
    [for i in reversed(range(1, len(x))): j = randbelow(i + 1); swap].
    [draws i] is what the generator yields at loop index [i]; it is
    reduced below [i + 1] as [randbelow] guarantees. *)
Fixpoint shuffle_down {A : Type} (draws : nat → nat) (i : nat) (x : list A)
    : list A :=
  match i with
  | 0 => x
  | S i' => shuffle_down draws i' (swap i (draws i mod (i + 1)) x)
  end.

Definition shuffle {A : Type} (draws : nat → nat) (x : list A) : list A :=
  shuffle_down draws (length x - 1) x.

(** The list built by the [extend] loop, before the shuffle. *)
Definition repeated_frameworks (cfg : Config) : list FrameworkEntry :=
  let frameworks := framework_images cfg in
  foldl (λ repeated _, repeated ++ frameworks) []
        (range (repeated_framework_count cfg)).

Definition gen_ran_framework_sequence (cfg : Config) (draws : nat → nat)
    : list FrameworkEntry :=
  shuffle draws (repeated_frameworks cfg).

(** [copy_detector_file]: the file system is outside the model; [outcome]
    says whether [os.makedirs]/[open]/[write] went through.  The handler
    logs and re-raises. *)
Definition copy_detector_file (outcome : py.result unit) : M unit :=
  try_except (λ w, (outcome, w)) (λ err, raise err).

(** What the container engine and the host shell answer to the calls of
    one [run_bot_container]. *)
Record Runtime : Type := {
  networks_list : py.result bool;      (* is [_networks] non-empty *)
  networks_create : py.result string;  (* the id of the new network *)
  networks_get : py.result string;
  inspect_network : py.result (string * string);  (* Subnet, Gateway *)
  iptables_forward : py.result unit;
  iptables_nat : py.result unit;
  docker_rm : py.result unit;
  containers_run : py.result unit;
  container_wait_seconds : Q;
  container_wait : py.result unit;
  container_stop : py.result unit;
  container_remove : py.result unit;
}.

(** A call to the engine: logged whatever it answers. *)
Definition call {A : Type} (c : docker_call) (answer : py.result A) : M A :=
  λ w, (answer, set_docker_log (docker_log w ++ [c]) w).

Definition stop_container (rt : Runtime) (container_name : string) : M unit :=
  try_except (call (DockerRmForce container_name) (docker_rm rt))
             (λ _, ret tt).

Definition run_bot_container (cfg : Config) (rt : Runtime)
    (image_name container_name network_name : string) (ulimit : Z) : M unit :=
  try_except
    (let* _networks := call (NetworksList network_name) (networks_list rt) in
     let* _network :=
       if negb _networks
       then call (NetworksCreate network_name) (networks_create rt)
       else call (NetworksGet network_name) (networks_get rt) in
     let* _network_info := call (InspectNetwork _network) (inspect_network rt) in
     let _subnet := _network_info.1 in
     let _gateway_ip := _network_info.2 in
     run* call (IptablesForwardDrop _subnet) (iptables_forward rt) in
     run* call (IptablesNatReturn _subnet) (iptables_nat rt) in
     run* stop_container rt container_name in
     run* time_sleep 1 in
     let _web_url :=
       ("http://" +:+ _gateway_ip +:+ ":" +:+ api_port cfg +:+ "/_web")%string in
     let _run_timeout := bot_timeout cfg in
     run* call (ContainersRun image_name container_name network_name
                              _web_url ulimit) (containers_run rt) in
     run* call LogThreadStart (py.Ok tt) in
     run* try_finally
            (try_except
               (run* time_sleep (container_wait_seconds rt) in
                call (ContainerWait _run_timeout) (container_wait rt))
               (λ wait_err,
                  match wait_err with
                  | py.APIError _ => ret tt
                  | _ => ret tt
                  end))
            (run* try_except (call (ContainerStop 5) (container_stop rt))
                             (λ _, ret tt) in
             try_except (call (ContainerRemove true) (container_remove rt))
                        (λ _, ret tt)) in
     ret tt)
    (λ err, raise err).

End utils.

(** ** service.py *)

Module service.

Definition _DRIVER_GRACE_SECONDS : Q := 5.

(** Reading [_driver_condition.waiters]. *)
Definition condition_waiters : M (list nat) :=
  λ w, if exposes_waiters (_driver_condition w)
       then (py.Ok (cv_waiters (_driver_condition w)), w)
       else (py.Raise (py.AttributeError
               "'Condition' object has no attribute 'waiters'"), w).

(** [_driver_condition.notify()]: wakes the first waiter and takes it off
    the list of waiters (nothing happens when nobody waits). *)
Definition condition_notify : M unit :=
  modify (λ w, set_waiters (tail (cv_waiters (_driver_condition w))) w).

(** [post_driver] runs on the thread of the HTTP request, under the lock
    of the condition. *)
Definition post_driver (driver : option string) : M unit :=
  let driver_value := py.strip (py.or_empty driver) in
  let* waiters := condition_waiters in
  match waiters with
  | _ :: _ =>
      run* modify (λ w, set_driver_queue (_driver_queue w ++ [driver_value]) w) in
      run* condition_notify in
      ret tt
  | [] => ret tt
  end.

Definition _clear_driver_queue (reason : string) : M unit :=
  modify (set_driver_queue []).

(** What other threads do while the scoring thread is blocked in one
    [_driver_condition.wait(timeout)]: the drivers they post, in order, and
    when the wait returns if one of them notifies it. *)
Record Episode : Type := {
  ep_posts : list (option string);
  ep_woken_after : Q;
}.

(** The HTTP threads run [post_driver] one after the other; what one of
    them raises stays on its own thread. *)
Definition http_posts (drivers : list (option string)) (w : World) : World :=
  foldl (λ w driver, (post_driver driver w).2) w drivers.

Definition new_waiter (waiters : list nat) : nat := S (foldr Nat.max 0 waiters).

(** [_driver_condition.wait(timeout)], as CPython's [threading.py] has it:
    register a waiter and release the lock; the other threads run; return
    on the notification or after [timeout], taking the lock again and, if
    timed out, unregistering the waiter.  The result is [gotit]. *)
Definition condition_wait (timeout : Q) (e : Episode) : M bool :=
  λ w,
    let waiter := new_waiter (cv_waiters (_driver_condition w)) in
    let w1 := set_waiters (cv_waiters (_driver_condition w) ++ [waiter]) w in
    let w2 := http_posts (ep_posts e) w1 in
    let gotit := negb (bool_decide (waiter ∈ cv_waiters (_driver_condition w2))) in
    let elapsed := if gotit then ep_woken_after e else timeout in
    let w3 := set_clock (clock w2 + elapsed)%Q w2 in
    let w4 :=
      if gotit then w3
      else set_waiters
             (filter (λ x, x ≠ waiter) (cv_waiters (_driver_condition w3))) w3 in
    (py.Ok gotit, w4).

(** A wait during which nobody posts. *)
Definition quiet : Episode := {| ep_posts := []; ep_woken_after := 0 |}.

(** The [while True] loop of [_wait_for_driver_result].  Each blocking
    wait takes the next episode of [schedule]; once the schedule is used
    up nobody posts any more, the last wait runs into its timeout and the
    loop leaves through the deadline test (lemma
    [quiet_wait_reaches_deadline]). *)
Fixpoint wait_loop (deadline : Q) (schedule : list Episode)
    : M (option string) :=
  let* queue := gets _driver_queue in
  match queue with
  | front :: rest =>
      run* modify (set_driver_queue rest) in
      let driver_value := py.or_empty (Some front) in
      let driver_value := py.strip driver_value in
      ret (py.or_none driver_value)
  | [] =>
      let* now := time_monotonic in
      let remaining := (deadline - now)%Q in
      if Qle_bool remaining 0 then ret None
      else match schedule with
           | e :: schedule' =>
               run* condition_wait remaining e in
               wait_loop deadline schedule'
           | [] =>
               run* condition_wait remaining quiet in
               ret None
           end
  end.

Definition _wait_for_driver_result (timeout_seconds : Q)
    (framework_name : string) (schedule : list Episode) : M (option string) :=
  let* now := time_monotonic in
  let deadline := (now + py.max timeout_seconds 0)%Q in
  wait_loop deadline schedule.

(** What the surroundings do during one trial: what the human trigger and
    the container engine answer, the drivers the HTTP threads post between
    the clearing of the queue and the wait (while the trigger or the
    container runs), and what they do during the wait. *)
Record TrialEnv : Type := {
  pushcut_execute : py.result unit;
  runtime : utils.Runtime;
  early_posts : list (option string);
  schedule : list Episode;
}.

Definition record (index : nat) (d : Detection) : M unit :=
  modify (λ w, set_detection_dict (py.dict_append index d (detection_dict w)) w).

(** The body of the [try] of one iteration of the trial loop. *)
Definition trial_body (cfg : Config) (index : nat) (framework_entry : FrameworkEntry)
    (te : TrialEnv) : M unit :=
  let framework_image_name := framework_name framework_entry in
  let framework_image := image framework_entry in
  let* _start_time := time_time in
  run* _clear_driver_queue
         ("before executing framework '" +:+ framework_image_name +:+ "'") in
  if bool_decide (framework_image_name = "human") then
    run* try_except (λ w, (pushcut_execute te, w)) (λ _, ret tt) in
    run* modify (http_posts (early_posts te)) in
    let* human_driver :=
      _wait_for_driver_result (pushcut_timeout cfg + _DRIVER_GRACE_SECONDS)%Q
        framework_image_name (schedule te) in
    let* _end_time := time_time in
    let _execution_time := (_end_time - _start_time)%Q in
    let predicted_value := default "No driver reported" human_driver in
    record index
      {| detected := bool_decide (human_driver = Some framework_image_name);
         driver := framework_image_name;
         predicted := predicted_value;
         execution_time := _execution_time |}
  else
    run* utils.run_bot_container cfg (runtime te) framework_image
           framework_image_name "local_network" (docker_ulimit cfg) in
    run* modify (http_posts (early_posts te)) in
    let* detected_driver :=
      _wait_for_driver_result (bot_timeout cfg + _DRIVER_GRACE_SECONDS)%Q
        framework_image_name (schedule te) in
    let* _end_time := time_time in
    let _execution_time := (_end_time - _start_time)%Q in
    run* time_sleep 1 in
    if py.truthy detected_driver then
      if bool_decide (detected_driver = Some framework_image_name) then
        record index
          {| detected := true;
             driver := framework_image_name;
             predicted := default "" detected_driver;
             execution_time := _execution_time |}
      else
        record index
          {| detected := false;
             driver := framework_image_name;
             predicted := default "" detected_driver;
             execution_time := _execution_time |}
    else
      record index
        {| detected := false;
           driver := framework_image_name;
           predicted := "The script did not return any driver";
           execution_time := _execution_time |}.

(** One iteration: the [try] and its [except Exception as err]. *)
Definition run_trial (cfg : Config) (index : nat) (framework_entry : FrameworkEntry)
    (te : TrialEnv) : M unit :=
  try_except (trial_body cfg index framework_entry te)
    (λ err,
       record index
         {| detected := false;
            driver := framework_name framework_entry;
            predicted := "Error: " +:+ py.str err;
            execution_time := 0 |}).

(** [for index, framework_entry in enumerate(random_frameworks)],
    from [index] on. *)
Fixpoint run_trials (cfg : Config) (env : nat → TrialEnv) (index : nat)
    (random_frameworks : list FrameworkEntry) : M unit :=
  match random_frameworks with
  | [] => ret tt
  | framework_entry :: rest =>
      run* run_trial cfg index framework_entry (env index) in
      run_trials cfg env (S index) rest
  end.

(** [framework_results]: the results regrouped by driver name. *)
Definition regroup (dd : gmap nat (list Detection)) : gmap string (list Detection) :=
  foldl (λ framework_results '(index, results),
           foldl (λ framework_results result,
                    py.dict_append (driver result) result framework_results)
                 framework_results results)
        ∅ (py.items dd).

(** [(total_detections, successful_detections)] *)
Definition tally (framework_results : gmap string (list Detection)) : nat * nat :=
  foldl (λ counts results,
           foldl (λ '(total_detections, successful_detections) result,
                    (S total_detections,
                     if detected result then S successful_detections
                     else successful_detections))
                 counts results)
        (0, 0) (py.values framework_results).

Definition final_score (counts : nat * nat) : Q :=
  let '(total_detections, successful_detections) := counts in
  if 0 <? total_detections
  then py.truediv successful_detections total_detections
  else 0.

(** What the surroundings do during one scoring run. *)
Record RunEnv : Type := {
  copy_outcome : py.result unit;   (* installing the submitted script *)
  from_env : py.result unit;       (* [docker.from_env()] *)
  draws : nat → nat;               (* the random generator *)
  trial_env : nat → TrialEnv;      (* the surroundings of trial [index] *)
}.

Definition score (cfg : Config) (env : RunEnv) : M Q :=
  run* modify (set_detection_dict ∅) in
  run* _clear_driver_queue "before scoring run" in
  try_finally
    (try_except
       (run* utils.copy_detector_file (copy_outcome env) in
        let random_frameworks :=
          utils.gen_ran_framework_sequence cfg (draws env) in
        let* docker_client := (λ w, (from_env env, w)) in
        run* run_trials cfg (trial_env env) 0 random_frameworks in
        let* dd := gets detection_dict in
        let framework_results := regroup dd in
        let _score := final_score (tally framework_results) in
        ret _score)
       (λ err,
          match err with
          | py.BaseHTTPException _ => raise err
          | _ => raise err
          end))
    (_clear_driver_queue "after scoring run").

Definition get_results : World → gmap nat (list Detection) := detection_dict.

(** The figures [score] logs for one framework: the number of successful
    detections, the number of results, and the success rate
    [success_count / len(results) if results else 0]. *)
Definition success_count (results : list Detection) : nat :=
  length (filter (λ r, detected r = true) results).

Definition total_count (results : list Detection) : nat := length results.

Definition success_rate (results : list Detection) : Q :=
  match results with
  | [] => 0
  | _ :: _ => py.truediv (success_count results) (length results)
  end.

End service.

(** ** router.py *)

Module router.

(** [post_score]: the score, or [None] after any exception. *)
Definition post_score (cfg : Config) (env : service.RunEnv) : M (option Q) :=
  try_except
    (let* _score := service.score cfg env in
     ret (Some _score))
    (λ err,
       match err with
       | py.HTTPException _ _ => ret None
       | _ => ret None
       end).

(** [post_driver]: any exception of the service becomes a status 500. *)
Definition post_driver (driver : string) : M unit :=
  try_except (service.post_driver (Some driver))
    (λ err, raise (py.HTTPException 500
                     "Error in posting driver name for scoring")).

Definition get_results : World → gmap nat (list Detection) := service.get_results.

End router.

(** ** Vocabulary of the specification *)

Module spec.

(** All outcomes recorded in a [detection_dict]. *)
Definition outcomes (dd : gmap nat (list Detection)) : list Detection :=
  mjoin (py.values dd).

Definition recorded (dd : gmap nat (list Detection)) : nat :=
  length (outcomes dd).

Definition matched (dd : gmap nat (list Detection)) : nat :=
  length (filter (λ o, detected o = true) (outcomes dd)).

(** A list repeated [n] times. *)
Definition repeated {A : Type} (n : nat) (l : list A) : list A :=
  mjoin (replicate n l).


(** The timeout of the wait of a trial. *)
Definition wait_timeout (cfg : Config) (fe : FrameworkEntry) : Q :=
  if bool_decide (framework_name fe = "human")
  then (pushcut_timeout cfg + service._DRIVER_GRACE_SECONDS)%Q
  else (bot_timeout cfg + service._DRIVER_GRACE_SECONDS)%Q.

(** A trial up to the point where it calls the wait. *)
Definition before_wait (cfg : Config) (fe : FrameworkEntry)
    (te : service.TrialEnv) : M unit :=
  run* service._clear_driver_queue "" in
  run* (if bool_decide (framework_name fe = "human")
        then try_except (λ w, (service.pushcut_execute te, w)) (λ _, ret tt)
        else utils.run_bot_container cfg (service.runtime te) (image fe)
               (framework_name fe) "local_network" (docker_ulimit cfg)) in
  modify (service.http_posts (service.early_posts te)).

(** The report a trial observes: what its wait returns, and nothing when
    the trial raises before it waits. *)
Definition observed (cfg : Config) (fe : FrameworkEntry)
    (te : service.TrialEnv) (w : World) : option string :=
  match before_wait cfg fe te w with
  | (py.Ok _, w1) =>
      match service._wait_for_driver_result (wait_timeout cfg fe)
              (framework_name fe) (service.schedule te) w1 with
      | (py.Ok r, _) => r
      | (py.Raise _, _) => None
      end
  | (py.Raise _, _) => None
  end.

(** The same trial with no driver posted before its wait. *)
Definition without_early_posts (te : service.TrialEnv) : service.TrialEnv :=
  {| service.pushcut_execute := service.pushcut_execute te;
     service.runtime := service.runtime te;
     service.early_posts := [];
     service.schedule := service.schedule te |}.

(** The world in which trial [k] of a run over [fs] starts. *)
Definition world_before (cfg : Config) (env : service.RunEnv)
    (fs : list FrameworkEntry) (k : nat) (w : World) : World :=
  (service.run_trials cfg (service.trial_env env) 0 (take k fs)
     (set_driver_queue [] (set_detection_dict ∅ w))).2.

(** The outcome recorded for a trial that raised [err]. *)
Definition error_outcome (fe : FrameworkEntry) (err : py.exn) : Detection :=
  {| detected := false; driver := framework_name fe;
     predicted := "Error: " +:+ py.str err; execution_time := 0 |}.

(** [w'] differs from [w] at most in the clock and the engine's log. *)
Definition same_service_state (w w' : World) : Prop :=
  detection_dict w' = detection_dict w
  ∧ _driver_queue w' = _driver_queue w
  ∧ _driver_condition w' = _driver_condition w.




Definition is_ok {A : Type} (r : py.result A) : bool :=
  match r with py.Ok _ => true | py.Raise _ => false end.


(** The runtime [rt] with another answer to the [docker rm -f] of
    [stop_container]. *)
Definition set_docker_rm (answer : py.result unit) (rt : utils.Runtime)
    : utils.Runtime :=
  {| utils.networks_list := utils.networks_list rt;
     utils.networks_create := utils.networks_create rt;
     utils.networks_get := utils.networks_get rt;
     utils.inspect_network := utils.inspect_network rt;
     utils.iptables_forward := utils.iptables_forward rt;
     utils.iptables_nat := utils.iptables_nat rt;
     utils.docker_rm := answer;
     utils.containers_run := utils.containers_run rt;
     utils.container_wait_seconds := utils.container_wait_seconds rt;
     utils.container_wait := utils.container_wait rt;
     utils.container_stop := utils.container_stop rt;
     utils.container_remove := utils.container_remove rt |}.

(** The engine answers every call that precedes [containers.run]. *)
Definition setup_ok (rt : utils.Runtime) : bool :=
  match utils.networks_list rt with
  | py.Ok found =>
      is_ok (if negb found then utils.networks_create rt else utils.networks_get rt)
      && is_ok (utils.inspect_network rt)
      && is_ok (utils.iptables_forward rt)
      && is_ok (utils.iptables_nat rt)
  | py.Raise _ => false
  end.

Definition is_run (c : docker_call) : bool :=
  match c with ContainersRun _ _ _ _ _ => true | _ => false end.

(** How often a log starts a container. *)
Definition runs (calls : list docker_call) : nat :=
  length (List.filter is_run calls).


(** The same run with no driver posted before the wait of any trial. *)
Definition run_without_early_posts (env : service.RunEnv) : service.RunEnv :=
  {| service.copy_outcome := service.copy_outcome env;
     service.from_env := service.from_env env;
     service.draws := service.draws env;
     service.trial_env := λ index, without_early_posts (service.trial_env env index) |}.

(** How often [name] occurs among the names of [fs]. *)
Definition occurrences (name : string) (fs : list FrameworkEntry) : nat :=
  length (filter (λ fe, framework_name fe = name) fs).

End spec.

(** ** Sample surroundings *)

Module sample.

Definition world0 : World :=
  {| detection_dict := ∅; _driver_queue := [];
     _driver_condition := {| exposes_waiters := true; cv_waiters := [] |};
     clock := 0; docker_log := [] |}.

Definition engine : utils.Runtime :=
  {| utils.networks_list := py.Ok true;
     utils.networks_create := py.Ok "local";
     utils.networks_get := py.Ok "local";
     utils.inspect_network := py.Ok ("172.18.0.0/16", "172.18.0.1");
     utils.iptables_forward := py.Ok tt;
     utils.iptables_nat := py.Ok tt;
     utils.docker_rm := py.Ok tt;
     utils.containers_run := py.Ok tt;
     utils.container_wait_seconds := 3;
     utils.container_wait := py.Ok tt;
     utils.container_stop := py.Ok tt;
     utils.container_remove := py.Ok tt |}.

(** The same engine, refusing to start a container. *)
Definition engine_no_launch : utils.Runtime :=
  {| utils.networks_list := py.Ok true;
     utils.networks_create := py.Ok "local";
     utils.networks_get := py.Ok "local";
     utils.inspect_network := py.Ok ("172.18.0.0/16", "172.18.0.1");
     utils.iptables_forward := py.Ok tt;
     utils.iptables_nat := py.Ok tt;
     utils.docker_rm := py.Ok tt;
     utils.containers_run := py.Raise (py.APIError "No such image");
     utils.container_wait_seconds := 0;
     utils.container_wait := py.Ok tt;
     utils.container_stop := py.Ok tt;
     utils.container_remove := py.Ok tt |}.

Definition chrome : FrameworkEntry :=
  {| framework_name := "chrome"; image := "chrome:latest" |}.
Definition firefox : FrameworkEntry :=
  {| framework_name := "firefox"; image := "firefox:latest" |}.
Definition human : FrameworkEntry :=
  {| framework_name := "human"; image := "" |}.

Definition config (frameworks : list FrameworkEntry) (count : Z) : Config :=
  {| framework_images := frameworks; repeated_framework_count := count;
     bot_timeout := 15; pushcut_timeout := 20; docker_ulimit := 32768;
     api_port := "10001" |}.

(** A trial during whose wait [drivers] are posted. *)
Definition trial (rt : utils.Runtime) (drivers : list (option string))
    : service.TrialEnv :=
  {| service.pushcut_execute := py.Ok tt;
     service.runtime := rt;
     service.early_posts := [Some "stale"];
     service.schedule :=
       [ {| service.ep_posts := drivers; service.ep_woken_after := 2 |} ] |}.

(** A trial during which [drivers] are posted while its container runs,
    and nothing while it waits. *)
Definition trial_posted_early (rt : utils.Runtime) (drivers : list (option string))
    : service.TrialEnv :=
  {| service.pushcut_execute := py.Ok tt;
     service.runtime := rt;
     service.early_posts := drivers;
     service.schedule := [] |}.

(** A run in which every trial is answered with "chrome". *)
Definition run_chrome : service.RunEnv :=
  {| service.copy_outcome := py.Ok tt;
     service.from_env := py.Ok tt;
     service.draws := λ i, 3 * i + 1;
     service.trial_env := λ _, trial engine [Some "chrome"] |}.

(** Four chrome trials; trial 2 is answered with "firefox". *)
Definition run_three_of_four : service.RunEnv :=
  {| service.copy_outcome := py.Ok tt;
     service.from_env := py.Ok tt;
     service.draws := λ i, i;
     service.trial_env :=
       λ index, trial engine [Some (if index =? 2 then "firefox" else "chrome")] |}.

(** A run whose trial 1 cannot start its container. *)
Definition run_failing_launch : service.RunEnv :=
  {| service.copy_outcome := py.Ok tt;
     service.from_env := py.Ok tt;
     service.draws := λ i, 3 * i + 1;
     service.trial_env :=
       λ index, if index =? 1 then trial engine_no_launch [Some "chrome"]
                else trial engine [Some "chrome"] |}.

(** A run whose submitted script cannot be installed. *)
Definition run_failing_copy : service.RunEnv :=
  {| service.copy_outcome := py.Raise (py.Exception "Permission denied");
     service.from_env := py.Ok tt;
     service.draws := λ i, i;
     service.trial_env := λ _, trial engine [] |}.

(** A world whose condition has no attribute [waiters]. *)
Definition world_no_attribute : World :=
  {| detection_dict := ∅; _driver_queue := [];
     _driver_condition := {| exposes_waiters := false; cv_waiters := [] |};
     clock := 0; docker_log := [] |}.

(** A human trial whose trigger fails. *)
Definition trial_trigger_fails (drivers : list (option string))
    : service.TrialEnv :=
  {| service.pushcut_execute := py.Raise (py.Exception "pushcut unreachable");
     service.runtime := engine_no_launch;
     service.early_posts := [];
     service.schedule :=
       [ {| service.ep_posts := drivers; service.ep_woken_after := 2 |} ] |}.

(** The same human trial with a trigger that succeeds and an engine that
    works. *)
Definition trial_trigger_works (drivers : list (option string))
    : service.TrialEnv :=
  {| service.pushcut_execute := py.Ok tt;
     service.runtime := engine;
     service.early_posts := [];
     service.schedule :=
       [ {| service.ep_posts := drivers; service.ep_woken_after := 2 |} ] |}.

End sample.

(** * Properties *)

(** ** The monad *)

Ltac unfold_monad :=
  unfold time_time, time_monotonic, time_sleep in *;
  unfold bind, ret, raise, try_except, try_finally, modify, gets in *.

(** ** Strings *)

Arguments py.isspace : simpl never.
Arguments py.or_empty : simpl never.
Arguments py.or_none : simpl never.
Arguments py.strip : simpl never.

Lemma or_empty_Some (s : string) : py.or_empty (Some s) = s.
Proof. by destruct s. Qed.




(** ** The broker: [post_driver], [_clear_driver_queue], the wait *)

Lemma post_driver_no_waiter (driver : option string) (w : World) :
  cv_waiters (_driver_condition w) = [] →
  (service.post_driver driver w).2 = w.
Proof.
  intros Hnone. unfold service.post_driver, service.condition_waiters, bind.
  destruct (exposes_waiters (_driver_condition w)); [|done].
  by rewrite Hnone.
Qed.

Lemma http_posts_no_waiter (drivers : list (option string)) (w : World) :
  cv_waiters (_driver_condition w) = [] →
  service.http_posts drivers w = w.
Proof.
  intros Hnone. induction drivers as [|d ds IH]; [done|].
  unfold service.http_posts in *. cbn [foldl].
  by rewrite post_driver_no_waiter.
Qed.


(** The runner touches neither the queue, nor the condition, nor the
    recorded outcomes. *)
Lemma run_bot_container_frame cfg rt image_name container_name network_name ulimit w :
  spec.same_service_state w
    (utils.run_bot_container cfg rt image_name container_name network_name ulimit w).2.
Proof.
  unfold utils.run_bot_container, utils.stop_container, utils.call.
  unfold_monad.
  destruct rt as [nl nc ng ins ipf ipn drm crun secs cwait cstop cremove]; cbn.
  destruct nl as [[]|]; cbn; try done;
    [destruct ng as [?|] | destruct nc as [?|]]; cbn; try done;
    (destruct ins as [[??]|]; cbn; [|done]);
    (destruct ipf; cbn; [|done]);
    (destruct ipn; cbn; [|done]);
    destruct drm; cbn;
    (destruct crun; cbn; [|done]);
    destruct cwait as [|[]]; cbn;
    destruct cstop; cbn; destruct cremove; cbn; done.
Qed.

(** ** The container runner *)

Ltac destruct_runtime rt :=
  destruct rt as [nl nc ng ins ipf ipn drm crun secs cwait cstop cremove]; cbn;
  destruct nl as [[]|]; cbn;
  [ destruct ng as [?|] | destruct nc as [?|] | ]; cbn;
  try (destruct ins as [[??]|]; cbn);
  try (destruct ipf; cbn);
  try (destruct ipn; cbn);
  try (destruct drm; cbn);
  try (destruct crun; cbn).


(** ** The wait *)

Arguments service.condition_wait : simpl never.

Lemma post_driver_keeps (driver : option string) (w : World) :
  let w' := (service.post_driver driver w).2 in
  detection_dict w' = detection_dict w ∧ docker_log w' = docker_log w
  ∧ clock w' = clock w.
Proof.
  unfold service.post_driver, service.condition_waiters, service.condition_notify.
  unfold_monad.
  destruct (exposes_waiters (_driver_condition w)); [|done].
  by destruct (cv_waiters (_driver_condition w)).
Qed.

Lemma http_posts_keeps (drivers : list (option string)) (w : World) :
  let w' := service.http_posts drivers w in
  detection_dict w' = detection_dict w ∧ docker_log w' = docker_log w
  ∧ clock w' = clock w.
Proof.
  revert w. induction drivers as [|d ds IH]; intros w; [done|].
  unfold service.http_posts in *. cbn [foldl].
  destruct (IH (service.post_driver d w).2) as (-> & -> & ->).
  apply post_driver_keeps.
Qed.

Lemma condition_wait_keeps (timeout : Q) (e : service.Episode) (w : World) :
  let r := service.condition_wait timeout e w in
  (∃ gotit, r.1 = py.Ok gotit)
  ∧ detection_dict r.2 = detection_dict w ∧ docker_log r.2 = docker_log w.
Proof.
  unfold service.condition_wait. cbn.
  match goal with |- context [service.http_posts ?ds ?w1] =>
    destruct (http_posts_keeps ds w1) as (Hdd & Hlog & _) end.
  split; [by eauto|].
  match goal with |- context [negb ?b] => destruct (negb b) end;
    cbn; by rewrite ?Hdd, ?Hlog.
Qed.

Lemma condition_wait_no_posts (timeout : Q) (e : service.Episode) (w : World) :
  service.ep_posts e = [] →
  _driver_queue (service.condition_wait timeout e w).2 = _driver_queue w.
Proof.
  intros Hquiet. unfold service.condition_wait. rewrite Hquiet. cbn.
  match goal with |- context [negb ?b] => by destruct (negb b) end.
Qed.

(** A wait during which nobody posts ends at the deadline with the queue as
    it was: the exit taken by [wait_loop] on an exhausted schedule is the
    one the loop of the source takes. *)
Lemma quiet_wait_reaches_deadline (deadline : Q) (w : World) :
  let w' := (service.condition_wait (deadline - clock w) service.quiet w).2 in
  _driver_queue w' = _driver_queue w
  ∧ Qle_bool (deadline - clock w') 0 = true.
Proof.
  split; [by apply condition_wait_no_posts|].
  unfold service.condition_wait, service.http_posts. cbn.
  rewrite bool_decide_eq_true_2 by (apply elem_of_app; right; apply list_elem_of_here).
  cbn. apply Qle_bool_iff. lra.
Qed.

(** A report at the front of the queue is taken at once: the schedule and
    the clock are not touched, the rest of the queue stays in order. *)
Lemma wait_loop_front deadline sched w front rest :
  _driver_queue w = front :: rest →
  service.wait_loop deadline sched w =
    (py.Ok (py.or_none (py.strip front)), set_driver_queue rest w).
Proof.
  intros Hq. destruct sched; cbn; unfold_monad; rewrite Hq; cbn;
    by rewrite or_empty_Some.
Qed.


(** With an empty queue and nobody posting, the loop returns [None]. *)
Lemma wait_loop_quiet deadline sched w :
  _driver_queue w = [] →
  Forall (λ e, service.ep_posts e = []) sched →
  ∃ w', service.wait_loop deadline sched w = (py.Ok None, w')
        ∧ _driver_queue w' = [].
Proof.
  intros Hq Hquiet. revert w Hq.
  induction Hquiet as [|e sched He _ IH]; intros w Hq.
  - cbn. unfold_monad. rewrite Hq. cbn.
    destruct (Qle_bool _ _); [by eauto|].
    destruct (condition_wait_keeps (deadline - clock w) service.quiet w)
      as ([gotit Hr] & _).
    pose proof (condition_wait_no_posts (deadline - clock w) service.quiet w eq_refl)
      as Hq'.
    destruct (service.condition_wait _ service.quiet w) as [r w1].
    cbn in Hr, Hq'; subst r. eexists; split; [done|]. by rewrite Hq'.
  - cbn. unfold_monad. rewrite Hq. cbn.
    destruct (Qle_bool _ _); [by eauto|].
    destruct (condition_wait_keeps (deadline - clock w) e w) as ([gotit Hr] & _).
    destruct (service.condition_wait _ e w) as [r w1] eqn:Hw1.
    cbn in Hr; subst r.
    apply IH. rewrite <- Hq, <- (condition_wait_no_posts (deadline - clock w) e w He).
    by rewrite Hw1.
Qed.

(** The loop always returns, takes at most one report off the queue, and
    leaves the recorded outcomes and the engine alone. *)
Lemma or_none_not_empty (s : string) : py.or_none s ≠ Some "".
Proof. by destruct s. Qed.

Lemma wait_loop_returns deadline sched w :
  ∃ r w', service.wait_loop deadline sched w = (py.Ok r, w')
          ∧ r ≠ Some ""
          ∧ length (_driver_queue w) ≤ S (length (_driver_queue w'))
          ∧ detection_dict w' = detection_dict w
          ∧ docker_log w' = docker_log w.
Proof.
  revert w. induction sched as [|e sched IH]; intros w.
  - destruct (_driver_queue w) as [|front rest] eqn:Hq.
    + cbn. unfold_monad. rewrite Hq. cbn.
      destruct (Qle_bool _ _);
        [eexists _, _; split; [done|]; cbn; split; [done|]; split; [lia|done]|].
      destruct (condition_wait_keeps (deadline - clock w) service.quiet w)
        as ([gotit Hr] & Hdd & Hlog).
      destruct (service.condition_wait _ service.quiet w) as [r w1].
      cbn in Hr, Hdd, Hlog; subst r.
      eexists _, _; split; [done|]. cbn.
      split; [done || apply or_none_not_empty|]. split; [lia|done].
    + rewrite (wait_loop_front _ _ _ _ _ Hq).
      eexists _, _; split; [done|]. cbn.
      split; [done || apply or_none_not_empty|]. split; [lia|done].
  - destruct (_driver_queue w) as [|front rest] eqn:Hq.
    + cbn. unfold_monad. rewrite Hq. cbn.
      destruct (Qle_bool _ _);
        [eexists _, _; split; [done|]; cbn; split; [done|]; split; [lia|done]|].
      destruct (condition_wait_keeps (deadline - clock w) e w)
        as ([gotit Hr] & Hdd & Hlog).
      destruct (service.condition_wait _ e w) as [r w1] eqn:Hw1.
      cbn in Hr, Hdd, Hlog; subst r.
      destruct (IH w1) as (r & w' & -> & Hr & _ & Hdd' & Hlog').
      eexists _, _; split; [done|]. cbn. split; [done|]. split; [lia|].
      by rewrite Hdd', Hlog'.
    + rewrite (wait_loop_front _ _ _ _ _ Hq).
      eexists _, _; split; [done|]. cbn.
      split; [done || apply or_none_not_empty|]. split; [lia|done].
Qed.

Lemma wait_returns timeout_seconds name sched w :
  ∃ r w', service._wait_for_driver_result timeout_seconds name sched w = (py.Ok r, w')
          ∧ r ≠ Some ""
          ∧ length (_driver_queue w) ≤ S (length (_driver_queue w'))
          ∧ detection_dict w' = detection_dict w
          ∧ docker_log w' = docker_log w.
Proof.
  unfold service._wait_for_driver_result. unfold_monad. apply wait_loop_returns.
Qed.

(** ** One trial *)

Arguments utils.run_bot_container : simpl never.
Arguments service._wait_for_driver_result : simpl never.
Arguments service.http_posts : simpl never.

(** Every trial returns normally and records one outcome under its index:
    the outcome of the error handler if the body raised, and otherwise one
    that is matched exactly when the wait returned the expected name. *)
Lemma run_trial_records cfg index fe te w :
  ∃ o w',
    service.run_trial cfg index fe te w = (py.Ok tt, w')
    ∧ detection_dict w' = py.dict_append index o (detection_dict w)
    ∧ driver o = framework_name fe
    ∧ (detected o = true ↔ spec.observed cfg fe te w = Some (framework_name fe))
    ∧ (∀ err w1, service.trial_body cfg index fe te w = (py.Raise err, w1) →
         o = spec.error_outcome fe err)
    ∧ (∀ w1, service.trial_body cfg index fe te w = (py.Ok tt, w1) →
         predicted o = default (if bool_decide (framework_name fe = "human")
                                then "No driver reported"
                                else "The script did not return any driver")
                               (spec.observed cfg fe te w)).
Proof.
  unfold service.run_trial, service.trial_body, spec.observed, spec.before_wait,
    spec.wait_timeout, service._clear_driver_queue, service.record.
  unfold_monad. cbn.
  case_bool_decide as Hhuman.
  - (* the human trial *)
    assert (∀ w0, detection_dict (service.http_posts (service.early_posts te)
                                    (set_driver_queue [] w0)) = detection_dict w0)
      as Hposts by (intros w0; by destruct (http_posts_keeps
                      (service.early_posts te) (set_driver_queue [] w0)) as (-> & _)).
    destruct (service.pushcut_execute te) as [[]|e]; cbn;
      match goal with |- context [service._wait_for_driver_result ?t ?n ?s ?w1] =>
        destruct (wait_returns t n s w1) as (r & w2 & Hw & Hne & _ & Hdd & _);
        rewrite Hw end; cbn;
      (eexists _, _; split; [reflexivity|]; cbn;
       rewrite Hdd, Hposts; split; [done|]; split; [done|];
       split; [apply bool_decide_eq_true|]; split; [done|by intros]).
  - (* a container trial *)
    pose proof (run_bot_container_frame cfg (service.runtime te) (image fe)
                  (framework_name fe) "local_network" (docker_ulimit cfg)
                  (set_driver_queue [] w)) as (Hdd1 & _ & _).
    destruct (utils.run_bot_container _ _ _ _ _ _ _) as [[[]|e] w1]; cbn in *.
    + destruct (http_posts_keeps (service.early_posts te) w1) as (Hdd2 & _).
      match goal with |- context [service._wait_for_driver_result ?t ?n ?s ?wx] =>
        destruct (wait_returns t n s wx) as (r & w2 & Hw & Hne & _ & Hdd & _);
        rewrite Hw end; cbn.
      destruct r as [[|c r]|]; cbn; [done| |].
      * case_bool_decide as Heq; cbn;
          (eexists _, _; split; [reflexivity|]; cbn;
           rewrite Hdd, Hdd2, Hdd1; split; [done|]; split; [done|];
           split; [done|]; split; [done|by intros]).
      * eexists _, _; split; [reflexivity|]; cbn.
        rewrite Hdd, Hdd2, Hdd1. split; [done|]. split; [done|].
        split; [done|]. split; [done|by intros].
    + eexists _, _; split; [reflexivity|]; cbn.
      rewrite Hdd1. split; [done|]. split; [done|]. split; [done|].
      split; [|done]. by intros err w2 [= -> ->].
Qed.

(** ** Dictionaries of lists *)

Section dict.
Context `{Countable K} {A : Type}.
Implicit Types (d : gmap K (list A)) (k : K) (x : A).

Lemma dict_append_lookup d k x :
  py.dict_append k x d !! k = Some (default [] (d !! k) ++ [x]).
Proof. unfold py.dict_append. by rewrite lookup_insert_eq. Qed.

Lemma dict_append_lookup_ne d k j x :
  k ≠ j → py.dict_append k x d !! j = d !! j.
Proof. intros. unfold py.dict_append. by rewrite lookup_insert_ne. Qed.

(** Appending under a key adds one element to the elements of the dict. *)
Lemma dict_append_elements d k x :
  mjoin (py.values (py.dict_append k x d)) ≡ₚ x :: mjoin (py.values d).
Proof.
  unfold py.dict_append, py.values.
  destruct (d !! k) as [l|] eqn:Hk; cbn [default].
  - rewrite <- (insert_delete_eq d).
    rewrite map_to_list_insert by apply lookup_delete_eq.
    rewrite <- (map_to_list_delete d k l Hk). cbn.
    rewrite <- (assoc_L (++)). cbn.
    by rewrite <- Permutation_middle.
  - by rewrite map_to_list_insert.
Qed.

Lemma foldl_dict_append (key : A → K) (l : list A) d :
  mjoin (py.values (foldl (λ d x, py.dict_append (key x) x d) d l))
  ≡ₚ l ++ mjoin (py.values d).
Proof.
  revert d. induction l as [|x l IH]; intros d; [done|].
  cbn [foldl]. rewrite IH, dict_append_elements. cbn.
  by rewrite <- Permutation_middle.
Qed.
End dict.

(** ** Aggregation *)

Lemma tally_step_foldl (results : list Detection) (total successful : nat) :
  foldl (λ '(total_detections, successful_detections) result,
           (S total_detections,
            if detected result then S successful_detections
            else successful_detections))
        (total, successful) results
  = (total + length results,
     successful + length (filter (λ o, detected o = true) results)).
Proof.
  revert total successful.
  induction results as [|r results IH]; intros total successful; cbn [foldl].
  - cbn. f_equal; lia.
  - rewrite IH, filter_cons. destruct (detected r); cbn.
    + rewrite decide_True by done. cbn. f_equal; lia.
    + rewrite decide_False by done. f_equal; lia.
Qed.

Lemma tally_foldl (groups : list (list Detection)) (total successful : nat) :
  foldl (λ counts results,
           foldl (λ '(total_detections, successful_detections) result,
                    (S total_detections,
                     if detected result then S successful_detections
                     else successful_detections))
                 counts results)
        (total, successful) groups
  = (total + length (mjoin groups),
     successful + length (filter (λ o, detected o = true) (mjoin groups))).
Proof.
  revert total successful.
  induction groups as [|g groups IH]; intros total successful; cbn [foldl].
  - cbn. f_equal; lia.
  - rewrite tally_step_foldl, IH. cbn. rewrite filter_app, !length_app.
    by rewrite !Nat.add_assoc.
Qed.

Lemma regroup_elements (dd : gmap nat (list Detection)) :
  mjoin (py.values (service.regroup dd)) ≡ₚ spec.outcomes dd.
Proof.
  unfold service.regroup, spec.outcomes, py.values, py.items.
  generalize (map_to_list dd). intros its.
  assert (∀ fr : gmap string (list Detection),
            mjoin (py.values
              (foldl (λ framework_results '(index, results),
                        foldl (λ framework_results result,
                                 py.dict_append (driver result) result
                                   framework_results)
                              framework_results results) fr its))
            ≡ₚ mjoin its.*2 ++ mjoin (py.values fr)) as Hgen.
  { induction its as [|[index results] its IH]; intros fr; [done|].
    cbn [foldl]. rewrite IH, foldl_dict_append. cbn.
    by rewrite (assoc_L (++)), (comm (++) (mjoin _) results). }
  specialize (Hgen ∅). unfold py.values in Hgen.
  rewrite map_to_list_empty in Hgen. cbn in Hgen.
  by rewrite (right_id_L [] (++)) in Hgen.
Qed.

(** Regrouping by driver name changes neither count. *)
Lemma tally_regroup (dd : gmap nat (list Detection)) :
  service.tally (service.regroup dd) = (spec.recorded dd, spec.matched dd).
Proof.
  unfold service.tally, spec.recorded, spec.matched.
  rewrite tally_foldl. cbn. by rewrite regroup_elements.
Qed.

Lemma matched_le_recorded (dd : gmap nat (list Detection)) :
  spec.matched dd ≤ spec.recorded dd.
Proof. apply length_filter. Qed.

Lemma recorded_dict_append index o (dd : gmap nat (list Detection)) :
  spec.recorded (py.dict_append index o dd) = S (spec.recorded dd).
Proof.
  unfold spec.recorded, spec.outcomes. by rewrite dict_append_elements.
Qed.

(** ** The loop over the trials *)

Arguments service.run_trial : simpl never.

Lemma run_trials_records cfg env fs : ∀ index w,
  ∃ w',
    service.run_trials cfg env index fs w = (py.Ok tt, w')
    ∧ (∀ j, j < index ∨ index + length fs ≤ j →
         detection_dict w' !! j = detection_dict w !! j)
    ∧ (∀ n fe, fs !! n = Some fe →
         ∃ o, detection_dict w' !! (index + n)
                = Some (default [] (detection_dict w !! (index + n)) ++ [o])
              ∧ driver o = framework_name fe)
    ∧ spec.recorded (detection_dict w') = spec.recorded (detection_dict w) + length fs.
Proof.
  induction fs as [|fe fs IH]; intros index w.
  - exists w. cbn. split; [done|]. split; [done|]. split; [done|lia].
  - destruct (run_trial_records cfg index fe (env index) w)
      as (o & w1 & Hrun & Hdd & Hdrv & _).
    destruct (IH (S index) w1) as (w' & Hrest & Hout & Hin & Hcount).
    exists w'. cbn [service.run_trials]. unfold bind. rewrite Hrun.
    split; [done|]. split; [|split].
    + intros j Hj. rewrite Hout by (cbn [length] in Hj; lia).
      rewrite Hdd. apply dict_append_lookup_ne. cbn [length] in Hj. lia.
    + intros [|n] fe' Hn.
      * injection Hn as <-. exists o. split; [|done].
        rewrite Nat.add_0_r, Hout by lia. rewrite Hdd. apply dict_append_lookup.
      * destruct (Hin n fe' Hn) as (o' & Ho' & Hdrv').
        exists o'. split; [|done].
        replace (index + S n) with (S index + n) by lia.
        rewrite Ho', Hdd. by rewrite dict_append_lookup_ne by lia.
    + rewrite Hcount, Hdd, recorded_dict_append. cbn [length]. lia.
Qed.

Lemma run_trials_app cfg env l1 l2 : ∀ index w,
  service.run_trials cfg env index (l1 ++ l2) w
  = service.run_trials cfg env (index + length l1) l2
      (service.run_trials cfg env index l1 w).2.
Proof.
  induction l1 as [|fe l1 IH]; intros index w.
  - cbn. by rewrite Nat.add_0_r.
  - cbn [app service.run_trials length]. unfold bind.
    destruct (run_trial_records cfg index fe (env index) w) as (o & w1 & -> & _).
    rewrite IH. by replace (S index + length l1) with (index + S (length l1)) by lia.
Qed.

(** ** The scoring run *)

(** The world after the two resets that open [score]. *)
Lemma score_cases cfg env w :
  let w0 := set_driver_queue [] (set_detection_dict ∅ w) in
  let fs := utils.gen_ran_framework_sequence cfg (service.draws env) in
  service.score cfg env w =
    match service.copy_outcome env, service.from_env env with
    | py.Raise err, _ => (py.Raise err, set_driver_queue [] w0)
    | py.Ok _, py.Raise err => (py.Raise err, set_driver_queue [] w0)
    | py.Ok _, py.Ok _ =>
        let w1 := (service.run_trials cfg (service.trial_env env) 0 fs w0).2 in
        (py.Ok (service.final_score (spec.recorded (detection_dict w1),
                                     spec.matched (detection_dict w1))),
         set_driver_queue [] w1)
    end.
Proof.
  intros w0 fs.
  unfold service.score, utils.copy_detector_file, service._clear_driver_queue.
  unfold_monad. cbn. fold w0. fold fs.
  destruct (service.copy_outcome env) as [[]|[]]; cbn; try done;
  destruct (service.from_env env) as [[]|[]]; cbn; try done.
  destruct (run_trials_records cfg (service.trial_env env) fs 0 w0)
    as (w1 & -> & _). cbn.
  by rewrite tally_regroup.
Qed.

Lemma score_records cfg env w s w' :
  service.score cfg env w = (py.Ok s, w') →
  let fs := utils.gen_ran_framework_sequence cfg (service.draws env) in
  (∀ k fe, fs !! k = Some fe →
     ∃ o, detection_dict w' !! k = Some [o] ∧ driver o = framework_name fe)
  ∧ (∀ k, length fs ≤ k → detection_dict w' !! k = None)
  ∧ spec.recorded (detection_dict w') = length fs
  ∧ s = service.final_score (spec.recorded (detection_dict w'),
                             spec.matched (detection_dict w')).
Proof.
  intros Hscore fs. rewrite score_cases in Hscore. fold fs in Hscore.
  destruct (service.copy_outcome env) as [[]|]; [|done].
  destruct (service.from_env env) as [[]|]; [|done].
  destruct (run_trials_records cfg (service.trial_env env) fs 0
              (set_driver_queue [] (set_detection_dict ∅ w)))
    as (w1 & Hrun & Hout & Hin & Hcount).
  rewrite Hrun in Hscore. cbn in Hscore. injection Hscore as <- <-.
  cbn in *. split; [|split; [|split]].
  - intros k fe Hk. destruct (Hin k fe Hk) as (o & Ho & Hdrv).
    exists o. by rewrite Ho, lookup_empty.
  - intros k Hk. rewrite Hout by lia. apply lookup_empty.
  - rewrite Hcount. unfold spec.recorded, spec.outcomes, py.values.
    by rewrite map_to_list_empty.
  - done.
Qed.

(** ** The trial sequence *)

Lemma insert_head_permutation {A : Type} (l : list A) (j : nat) (x y : A) :
  l !! j = Some y → x :: l ≡ₚ y :: <[j := x]> l.
Proof.
  revert j. induction l as [|b l IH]; intros [|j] Hj; try done.
  - injection Hj as ->. apply perm_swap.
  - cbn in Hj. cbn. rewrite perm_swap. rewrite (IH j Hj). apply perm_swap.
Qed.

Lemma swap_permutation {A : Type} (i j : nat) (x : list A) :
  utils.swap i j x ≡ₚ x.
Proof.
  unfold utils.swap. revert i j.
  induction x as [|a x IH]; intros i j; [by destruct i|].
  destruct i as [|i], j as [|j]; cbn.
  - done.
  - destruct (x !! j) as [b|] eqn:Hj; [|done]. cbn.
    symmetry. by apply insert_head_permutation.
  - destruct (x !! i) as [b|] eqn:Hi; [|done]. cbn.
    symmetry. by apply insert_head_permutation.
  - specialize (IH i j).
    destruct (x !! i) as [b|]; [|done]. destruct (x !! j) as [c|]; [|done].
    cbn. by rewrite IH.
Qed.

Lemma shuffle_permutation {A : Type} (draws : nat → nat) (x : list A) :
  utils.shuffle draws x ≡ₚ x.
Proof.
  unfold utils.shuffle. generalize (length x - 1). intros i. revert x.
  induction i as [|i IH]; intros x; [done|].
  cbn [utils.shuffle_down]. rewrite IH. apply swap_permutation.
Qed.

Lemma repeated_frameworks_eq (cfg : Config) :
  utils.repeated_frameworks cfg
  = spec.repeated (Z.to_nat (repeated_framework_count cfg)) (framework_images cfg).
Proof.
  unfold utils.repeated_frameworks, utils.range, spec.repeated.
  generalize (Z.to_nat (repeated_framework_count cfg)) as n.
  generalize (framework_images cfg) as frameworks. intros frameworks n.
  assert (∀ start acc,
            foldl (λ repeated (_ : nat), repeated ++ frameworks) acc (seq start n)
            = acc ++ mjoin (replicate n frameworks)) as Hgen.
  { induction n as [|n IH]; intros start acc; cbn.
    - by rewrite (right_id_L [] (++)).
    - by rewrite IH, (assoc_L (++)). }
  apply (Hgen 0 []).
Qed.

Lemma length_repeated {A : Type} (n : nat) (l : list A) :
  length (spec.repeated n l) = n * length l.
Proof.
  unfold spec.repeated. induction n as [|n IH]; [done|].
  cbn [replicate].
  change (mjoin (l :: replicate n l)) with (l ++ mjoin (replicate n l)).
  rewrite length_app, IH. done.
Qed.

(** ** Who is registered on the condition *)

Lemma post_driver_waiters (driver : option string) (w : World) :
  let w' := (service.post_driver driver w).2 in
  exposes_waiters (_driver_condition w') = exposes_waiters (_driver_condition w)
  ∧ ∃ n, cv_waiters (_driver_condition w') = drop n (cv_waiters (_driver_condition w)).
Proof.
  unfold service.post_driver, service.condition_waiters, service.condition_notify.
  unfold_monad.
  destruct (exposes_waiters (_driver_condition w)) eqn:Hexp; [|by split; [|exists 0]].
  destruct (cv_waiters (_driver_condition w)) as [|x ws] eqn:Hws; cbn.
  - rewrite Hexp, Hws. by split; [|exists 0].
  - rewrite Hws. cbn. by split; [|exists 1].
Qed.

Lemma http_posts_waiters (drivers : list (option string)) (w : World) :
  ∃ n, cv_waiters (_driver_condition (service.http_posts drivers w))
       = drop n (cv_waiters (_driver_condition w)).
Proof.
  revert w. induction drivers as [|d ds IH]; intros w; [by exists 0|].
  unfold service.http_posts in *. cbn [foldl].
  destruct (IH (service.post_driver d w).2) as [n ->].
  destruct (post_driver_waiters d w) as (_ & m & ->).
  exists (m + n). by rewrite drop_drop.
Qed.

(** A wait entered with nobody registered is left with nobody registered:
    outside its waits the scoring thread is not on the list of waiters. *)
Lemma condition_wait_unregisters timeout e (w : World) :
  cv_waiters (_driver_condition w) = [] →
  cv_waiters (_driver_condition (service.condition_wait timeout e w).2) = [].
Proof.
  intros Hws. unfold service.condition_wait. rewrite Hws.
  change (service.new_waiter []) with 1. cbn [app snd].
  destruct (http_posts_waiters (service.ep_posts e) (set_waiters [1] w)) as [n Hn].
  cbn [cv_waiters _driver_condition set_waiters] in Hn.
  destruct n as [|n]; cbn in Hn.
  - rewrite Hn. rewrite bool_decide_eq_true_2 by apply list_elem_of_here.
    cbn. rewrite Hn. cbn. by rewrite decide_False by (by intros []).
  - rewrite drop_nil in Hn. rewrite Hn.
    rewrite bool_decide_eq_false_2 by apply not_elem_of_nil. cbn. by rewrite Hn.
Qed.

Lemma wait_loop_unregisters deadline sched : ∀ w,
  cv_waiters (_driver_condition w) = [] →
  cv_waiters (_driver_condition (service.wait_loop deadline sched w).2) = [].
Proof.
  induction sched as [|e sched IH]; intros w Hws.
  - cbn. unfold_monad. destruct (_driver_queue w); [|done]. cbn.
    destruct (Qle_bool _ _); [done|].
    pose proof (condition_wait_unregisters (deadline - clock w) service.quiet w Hws).
    destruct (condition_wait_keeps (deadline - clock w) service.quiet w)
      as ([gotit Hr] & _).
    destruct (service.condition_wait _ service.quiet w) as [r w1].
    cbn in Hr; by subst r.
  - cbn. unfold_monad. destruct (_driver_queue w); [|done]. cbn.
    destruct (Qle_bool _ _); [done|].
    pose proof (condition_wait_unregisters (deadline - clock w) e w Hws).
    destruct (condition_wait_keeps (deadline - clock w) e w) as ([gotit Hr] & _).
    destruct (service.condition_wait _ e w) as [r w1].
    cbn in Hr; subst r. by apply IH.
Qed.

Lemma wait_unregisters timeout_seconds name sched (w : World) :
  cv_waiters (_driver_condition w) = [] →
  cv_waiters (_driver_condition
                (service._wait_for_driver_result timeout_seconds name sched w).2) = [].
Proof.
  intros Hws. unfold service._wait_for_driver_result. unfold_monad.
  by apply wait_loop_unregisters.
Qed.

Lemma run_trial_unregisters cfg index fe te (w : World) :
  cv_waiters (_driver_condition w) = [] →
  cv_waiters (_driver_condition (service.run_trial cfg index fe te w).2) = [].
Proof.
  intros Hws.
  unfold service.run_trial, service.trial_body, service._clear_driver_queue,
    service.record.
  unfold_monad. cbn.
  case_bool_decide as Hhuman.
  - destruct (service.pushcut_execute te) as [[]|e]; cbn;
      rewrite http_posts_no_waiter by done;
      match goal with |- context [service._wait_for_driver_result ?t ?n ?s ?wx] =>
        pose proof (wait_unregisters t n s wx Hws) as Hw';
        destruct (wait_returns t n s wx) as (r & w2 & Hw & _);
        rewrite Hw in Hw' |- * end; done.
  - pose proof (run_bot_container_frame cfg (service.runtime te) (image fe)
                  (framework_name fe) "local_network" (docker_ulimit cfg)
                  (set_driver_queue [] w)) as (_ & _ & Hcond).
    destruct (utils.run_bot_container _ _ _ _ _ _ _) as [[[]|e] w1];
      cbn in Hcond; cbn; [|by rewrite Hcond].
    assert (cv_waiters (_driver_condition w1) = []) as Hws1 by (by rewrite Hcond).
    rewrite http_posts_no_waiter by done.
    match goal with |- context [service._wait_for_driver_result ?t ?n ?s ?wx] =>
      pose proof (wait_unregisters t n s wx Hws1) as Hw';
      destruct (wait_returns t n s wx) as (r & w2 & Hw & _);
      rewrite Hw in Hw' |- * end. cbn.
    destruct (py.truthy r); [case_bool_decide|]; done.
Qed.

(** ** Stale posts *)

Lemma trial_ignores_stale_posts cfg index fe te w :
  cv_waiters (_driver_condition w) = [] →
  service.run_trial cfg index fe te w
  = service.run_trial cfg index fe (spec.without_early_posts te) w.
Proof.
  intros Hnone.
  unfold service.run_trial, service.trial_body, service._clear_driver_queue.
  unfold_monad. cbn.
  case_bool_decide as Hhuman.
  - destruct (service.pushcut_execute te) as [[]|e]; cbn;
      by rewrite !http_posts_no_waiter.
  - pose proof (run_bot_container_frame cfg (service.runtime te) (image fe)
                  (framework_name fe) "local_network" (docker_ulimit cfg)
                  (set_driver_queue [] w)) as (_ & _ & Hcond).
    destruct (utils.run_bot_container _ _ _ _ _ _ _) as [[[]|e] w1]; [|done].
    cbn in Hcond. cbn.
    by rewrite !http_posts_no_waiter by (by rewrite Hcond).
Qed.

(** ** Successive waits *)


(** ** The bounds of the score *)

Lemma truediv_bounds (successful total : nat) :
  0 < total → successful ≤ total →
  (0 <= py.truediv successful total)%Q ∧ (py.truediv successful total <= 1)%Q.
Proof.
  intros Hpos Hle. unfold py.truediv.
  assert (0 < inject_Z (Z.of_nat total))%Q as Hq.
  { change 0%Q with (inject_Z 0). rewrite <- Zlt_Qlt. lia. }
  split.
  - apply Qle_shift_div_l; [done|]. rewrite Qmult_0_l.
    change 0%Q with (inject_Z 0). rewrite <- Zle_Qle. lia.
  - apply Qle_shift_div_r; [done|]. rewrite Qmult_1_l.
    rewrite <- Zle_Qle. lia.
Qed.

Lemma final_score_bounds (dd : gmap nat (list Detection)) :
  let s := service.final_score (spec.recorded dd, spec.matched dd) in
  (0 <= s)%Q ∧ (s <= 1)%Q.
Proof.
  unfold service.final_score. destruct (0 <? spec.recorded dd) eqn:Hpos.
  - apply truediv_bounds; [by apply Nat.ltb_lt|apply matched_le_recorded].
  - done.
Qed.

(** ** The engine calls of a trial *)

Lemma run_trial_docker_log cfg index fe te (w : World) :
  docker_log (service.run_trial cfg index fe te w).2
  = if bool_decide (framework_name fe = "human") then docker_log w
    else docker_log
           (utils.run_bot_container cfg (service.runtime te) (image fe)
              (framework_name fe) "local_network" (docker_ulimit cfg)
              (set_driver_queue [] w)).2.
Proof.
  unfold service.run_trial, service.trial_body, service._clear_driver_queue,
    service.record.
  unfold_monad. cbn.
  case_bool_decide as Hhuman.
  - destruct (service.pushcut_execute te) as [[]|e]; cbn;
      match goal with |- context [service._wait_for_driver_result ?t ?n ?s ?wx] =>
        destruct (wait_returns t n s wx) as (r & w2 & Hw & _ & _ & _ & Hlog);
        destruct (http_posts_keeps (service.early_posts te)
                    (set_driver_queue [] w)) as (_ & Hlog' & _);
        rewrite Hw end; cbn; by rewrite Hlog, Hlog'.
  - destruct (utils.run_bot_container _ _ _ _ _ _ _) as [[[]|e] w1]; cbn; [|done].
    destruct (http_posts_keeps (service.early_posts te) w1) as (_ & Hlog' & _).
    match goal with |- context [service._wait_for_driver_result ?t ?n ?s ?wx] =>
      destruct (wait_returns t n s wx) as (r & w2 & Hw & _ & _ & _ & Hlog);
      rewrite Hw end; cbn.
    destruct (py.truthy r); [case_bool_decide|]; cbn; by rewrite Hlog, Hlog'.
Qed.

(** ** A driver posted during the wait *)





(** * The claims *)

(** C1. A driver posted through [post_driver] while no thread is blocked in
    the wait is not enqueued: the queue, and with it the whole world, is as
    it was before the post.  Hence a later wait, and a later trial, return
    what they return without that post; a trial is not affected by the
    drivers posted between its clearing of the queue and its wait; and when
    a trial is over again nobody is registered, so that this holds for the
    posts that follow it as well. *)
Theorem post_driver_without_waiter_is_discarded
    (driver : option string) (w : World) :
  cv_waiters (_driver_condition w) = [] →
  let w' := (service.post_driver driver w).2 in
  _driver_queue w' = _driver_queue w
  ∧ (∀ timeout_seconds name sched,
       service._wait_for_driver_result timeout_seconds name sched w'
       = service._wait_for_driver_result timeout_seconds name sched w)
  ∧ (∀ cfg index fe te,
       service.run_trial cfg index fe te w' = service.run_trial cfg index fe te w)
  ∧ (∀ cfg index fe te,
       service.run_trial cfg index fe te w
       = service.run_trial cfg index fe (spec.without_early_posts te) w)
  ∧ (∀ cfg index fe te,
       cv_waiters (_driver_condition (service.run_trial cfg index fe te w).2) = []).
Proof.
  intros Hnone w'. subst w'. rewrite post_driver_no_waiter by done.
  repeat split; try done.
  - intros. by apply trial_ignores_stale_posts.
  - intros. by apply run_trial_unregisters.
Qed.

Lemma post_driver_without_waiter_witness :
  cv_waiters (_driver_condition sample.world0) = []
  ∧ _driver_queue (service.post_driver (Some "chrome") sample.world0).2
    = _driver_queue sample.world0.
Proof.
  split; [reflexivity|].
  exact (proj1 (post_driver_without_waiter_is_discarded
                  (Some "chrome") sample.world0 eq_refl)).
Defined.




(** C3. A scoring run that completes returns the number of matched
    outcomes divided by the number of recorded outcomes: 3/4 (that is 0.75)
    for four outcomes of which three are matched, and exactly 0 when no
    outcome has been recorded. *)
Theorem score_is_matched_over_recorded cfg env (w : World) (s : Q) (w' : World) :
  service.score cfg env w = (py.Ok s, w') →
  let dd := detection_dict w' in
  s = (if 0 <? spec.recorded dd
       then py.truediv (spec.matched dd) (spec.recorded dd) else 0%Q)
  ∧ (spec.recorded dd = 4 → spec.matched dd = 3 → s = (3 # 4)%Q)
  ∧ (spec.recorded dd = 0 → s = 0%Q).
Proof.
  intros Hscore dd. destruct (score_records cfg env w s w' Hscore) as (_ & _ & _ & Hs).
  fold dd in Hs. unfold service.final_score in Hs. split; [done|]. split.
  - intros H4 H3. by rewrite Hs, H4, H3.
  - intros H0. by rewrite Hs, H0.
Qed.

Lemma score_is_matched_over_recorded_witness :
  let w' := (service.score (sample.config [sample.chrome] 4)
               sample.run_three_of_four sample.world0).2 in
  service.score (sample.config [sample.chrome] 4) sample.run_three_of_four
    sample.world0 = (py.Ok (3 # 4)%Q, w')
  ∧ spec.recorded (detection_dict w') = 4
  ∧ spec.matched (detection_dict w') = 3
  ∧ (3 # 4)%Q = (if 0 <? spec.recorded (detection_dict w')
                 then py.truediv (spec.matched (detection_dict w'))
                        (spec.recorded (detection_dict w'))
                 else 0%Q).
Proof.
  intros w'.
  assert (service.score (sample.config [sample.chrome] 4)
            sample.run_three_of_four sample.world0 = (py.Ok (3 # 4)%Q, w')) as Hrun
    by (vm_compute; reflexivity).
  split; [exact Hrun|].
  split; [vm_compute; reflexivity|].
  split; [vm_compute; reflexivity|].
  exact (proj1 (score_is_matched_over_recorded _ _ _ _ _ Hrun)).
Defined.




(** C5. [score] starts from a clean slate: whatever outcomes and pending
    reports the previous run left behind, the run behaves as if there were
    none.  Every trial clears the queue before it does anything else, so it
    behaves the same whatever the queue held; and after the run, also one
    that raised, the queue is empty. *)
Theorem score_clears_previous_state cfg env (w : World) :
  (∀ dd q,
     service.score cfg env (set_driver_queue q (set_detection_dict dd w))
     = service.score cfg env w)
  ∧ (∀ index fe te q,
       service.run_trial cfg index fe te (set_driver_queue q w)
       = service.run_trial cfg index fe te w)
  ∧ _driver_queue (service.score cfg env w).2 = []
  ∧ (∀ err w', service.score cfg env w = (py.Raise err, w') →
       detection_dict w' = ∅).
Proof.
  split; [|split; [|split]].
  - intros dd q. by rewrite !score_cases.
  - intros index fe te q. done.
  - rewrite score_cases.
    destruct (service.copy_outcome env) as [[]|]; [|done].
    by destruct (service.from_env env) as [[]|].
  - intros err w'. rewrite score_cases.
    destruct (service.copy_outcome env) as [[]|]; [|by intros [= _ <-]].
    destruct (service.from_env env) as [[]|]; [done|by intros [= _ <-]].
Qed.

(** C6. When the body of trial [k] raises, the handler of the trial records
    an unmatched outcome whose predicted value is "Error: " followed by the
    message, the run goes on, every later trial records its outcome, and
    [score] returns. *)
Theorem failing_trial_is_recorded_and_run_continues
    cfg env (w : World) (k : nat) (fe : FrameworkEntry) (err : py.exn) (w1 : World) :
  service.copy_outcome env = py.Ok tt →
  service.from_env env = py.Ok tt →
  let fs := utils.gen_ran_framework_sequence cfg (service.draws env) in
  fs !! k = Some fe →
  service.trial_body cfg k fe (service.trial_env env k)
    (spec.world_before cfg env fs k w) = (py.Raise err, w1) →
  ∃ s w',
    service.score cfg env w = (py.Ok s, w')
    ∧ detection_dict w' !! k = Some [spec.error_outcome fe err]
    ∧ ∀ j fe', k < j → fs !! j = Some fe' →
        ∃ o, detection_dict w' !! j = Some [o] ∧ driver o = framework_name fe'.
Proof.
  intros Hcopy Henv fs Hk Hbody.
  pose proof (score_cases cfg env w) as Hscore. cbn zeta in Hscore.
  rewrite Hcopy, Henv in Hscore. fold fs in Hscore.
  eexists _, _. split; [exact Hscore|].
  split.
  - cbn [detection_dict set_driver_queue].
    rewrite <- (take_drop_middle fs k fe Hk) at 1.
    rewrite run_trials_app. cbn [service.run_trials]. unfold bind.
    fold (spec.world_before cfg env fs k w).
    assert (length (take k fs) = k) as Hlen.
    { rewrite length_take. apply lookup_lt_Some in Hk. lia. }
    rewrite Hlen. cbn [Nat.add].
    destruct (run_trial_records cfg k fe (service.trial_env env k)
                (spec.world_before cfg env fs k w))
      as (o & wk & Hrun & Hdd & _ & _ & Herr & _).
    rewrite Hrun. rewrite (Herr err w1 Hbody) in Hdd.
    destruct (run_trials_records cfg (service.trial_env env) (drop (S k) fs) (S k) wk)
      as (w' & Hrest & Hout & _).
    rewrite Hrest. cbn [snd]. rewrite Hout by lia. rewrite Hdd.
    rewrite dict_append_lookup.
    destruct (run_trials_records cfg (service.trial_env env) (take k fs) 0
                (set_driver_queue [] (set_detection_dict ∅ w)))
      as (w0 & Hfirst & Hout0 & _).
    unfold spec.world_before. rewrite Hfirst. cbn [snd].
    rewrite Hout0 by lia. cbn. by rewrite lookup_empty.
  - intros j fe' _ Hj.
    destruct (score_records cfg env w _ _ Hscore) as (Hin & _).
    by apply Hin.
Qed.

Lemma failing_trial_is_recorded_witness :
  let cfg := sample.config [sample.chrome; sample.firefox] 1 in
  let env := sample.run_failing_launch in
  let fs := utils.gen_ran_framework_sequence cfg (service.draws env) in
  let body := service.trial_body cfg 1 sample.chrome (service.trial_env env 1)
                (spec.world_before cfg env fs 1 sample.world0) in
  fs !! 1 = Some sample.chrome
  ∧ body = (py.Raise (py.APIError "No such image"), body.2)
  ∧ ∃ s w',
      service.score cfg env sample.world0 = (py.Ok s, w')
      ∧ detection_dict w' !! 1
        = Some [spec.error_outcome sample.chrome (py.APIError "No such image")].
Proof.
  intros cfg env fs body.
  assert (fs !! 1 = Some sample.chrome) as Hk by (vm_compute; reflexivity).
  assert (body = (py.Raise (py.APIError "No such image"), body.2)) as Hbody
    by (vm_compute; reflexivity).
  split; [exact Hk|]. split; [exact Hbody|].
  destruct (failing_trial_is_recorded_and_run_continues cfg env sample.world0 1
              sample.chrome (py.APIError "No such image") body.2
              eq_refl eq_refl Hk Hbody) as (s & w' & Hscore & Hrec & _).
  exists s, w'. split; [exact Hscore|exact Hrec].
Defined.



(** C8. [post_score] never raises: it returns the score of the run, a
    number between 0 and 1, when [score] returns, and [None] when [score]
    raises.  [score] raises exactly when the installation of the submitted
    script or the connection to the container engine raises, and then it
    raises that error. *)
Theorem post_score_never_raises cfg env (w : World) :
  match router.post_score cfg env w with
  | (py.Ok (Some s), _) =>
      (0 <= s)%Q ∧ (s <= 1)%Q ∧ (service.score cfg env w).1 = py.Ok s
  | (py.Ok None, _) => ∃ err, (service.score cfg env w).1 = py.Raise err
  | (py.Raise _, _) => False
  end
  ∧ ∀ err, (service.score cfg env w).1 = py.Raise err
           ↔ service.copy_outcome env = py.Raise err
             ∨ (service.copy_outcome env = py.Ok tt
                ∧ service.from_env env = py.Raise err).
Proof.
  unfold router.post_score. unfold_monad. rewrite score_cases.
  destruct (service.copy_outcome env) as [[]|e1]; cbn.
  - destruct (service.from_env env) as [[]|e2]; cbn.
    + split.
      * pose proof (final_score_bounds (detection_dict
          (service.run_trials cfg (service.trial_env env) 0
             (utils.gen_ran_framework_sequence cfg (service.draws env))
             (set_driver_queue [] (set_detection_dict ∅ w))).2)) as [? ?].
        done.
      * intros err. split; [done|]. by intros [|[_ ?]].
    + split.
      * destruct e2; cbn; by eauto.
      * intros err. split; [intros [= ->]; by right|].
        by intros [|[_ [= ->]]].
  - split.
    + destruct e1; cbn; by eauto.
    + intros err. split; [intros [= ->]; by left|].
      by intros [[= ->]|[? _]].
Qed.

(** A run whose script cannot be installed: [score] raises, [post_score]
    returns [None] and the queue is left empty. *)
Example post_score_failing_copy :
  (service.score (sample.config [sample.chrome] 1) sample.run_failing_copy
     sample.world0).1 = py.Raise (py.Exception "Permission denied")
  ∧ router.post_score (sample.config [sample.chrome] 1) sample.run_failing_copy
      sample.world0 = (py.Ok None, sample.world0).
Proof. vm_compute. done. Qed.



(** C10. Every trial returns normally and records exactly one outcome under
    its index: the outcome of the error handler when its body raised, an
    unmatched outcome with a placeholder as predicted value when its wait
    returned nothing.  After a completed run each of the trials has its one
    outcome, no other index has any, and the denominator of the score is
    the number of trials. *)
Theorem every_trial_records_one_outcome cfg env (w : World) (s : Q) (w' : World) :
  service.score cfg env w = (py.Ok s, w') →
  let fs := utils.gen_ran_framework_sequence cfg (service.draws env) in
  (∀ k fe, fs !! k = Some fe →
     ∃ o, detection_dict w' !! k = Some [o] ∧ driver o = framework_name fe)
  ∧ (∀ k, length fs ≤ k → detection_dict w' !! k = None)
  ∧ spec.recorded (detection_dict w') = length fs
  ∧ (service.tally (service.regroup (detection_dict w'))).1 = length fs
  ∧ (∀ index fe te w0,
       ∃ o w1,
         service.run_trial cfg index fe te w0 = (py.Ok tt, w1)
         ∧ detection_dict w1 = py.dict_append index o (detection_dict w0)
         ∧ driver o = framework_name fe
         ∧ (∀ err w2,
              service.trial_body cfg index fe te w0 = (py.Raise err, w2) →
              o = spec.error_outcome fe err)
         ∧ (∀ w2,
              service.trial_body cfg index fe te w0 = (py.Ok tt, w2) →
              spec.observed cfg fe te w0 = None →
              detected o = false
              ∧ predicted o = if bool_decide (framework_name fe = "human")
                              then "No driver reported"
                              else "The script did not return any driver")).
Proof.
  intros Hscore fs.
  destruct (score_records cfg env w s w' Hscore) as (Hin & Hout & Hcount & _).
  fold fs in Hin, Hout, Hcount.
  split; [done|]. split; [done|]. split; [done|].
  split; [by rewrite tally_regroup|].
  intros index fe te w0.
  destruct (run_trial_records cfg index fe te w0)
    as (o & w1 & Hrun & Hdd & Hdrv & Hiff & Herr & Hpred).
  exists o, w1. split; [done|]. split; [done|]. split; [done|]. split; [done|].
  intros w2 Hbody Hobs. rewrite (Hpred w2 Hbody), Hobs. split; [|done].
  destruct (detected o) eqn:Hd; [|done].
  destruct Hiff as [Hiff _]. by rewrite Hobs in Hiff; specialize (Hiff eq_refl).
Qed.

Lemma every_trial_records_one_outcome_witness :
  let cfg := sample.config [sample.chrome; sample.firefox; sample.human] 2 in
  let r := service.score cfg sample.run_chrome sample.world0 in
  r = (py.Ok (2 # 6)%Q, r.2)
  ∧ spec.recorded (detection_dict r.2)
    = length (utils.gen_ran_framework_sequence cfg (service.draws sample.run_chrome)).
Proof.
  intros cfg r.
  assert (r = (py.Ok (2 # 6)%Q, r.2)) as Hrun by (vm_compute; reflexivity).
  split; [exact Hrun|].
  exact (proj1 (proj2 (proj2 (every_trial_records_one_outcome
                                cfg sample.run_chrome sample.world0 _ _ Hrun)))).
Defined.

(** * Further properties of the code *)

(** ** The broker *)

Lemma post_driver_unreadable (driver : option string) (w : World) :
  exposes_waiters (_driver_condition w) = false →
  service.post_driver driver w
  = (py.Raise (py.AttributeError "'Condition' object has no attribute 'waiters'"),
     w).
Proof.
  intros Hexp. unfold service.post_driver, service.condition_waiters, bind.
  by rewrite Hexp.
Qed.

Lemma http_posts_unreadable (drivers : list (option string)) (w : World) :
  exposes_waiters (_driver_condition w) = false →
  service.http_posts drivers w = w.
Proof.
  intros Hexp. induction drivers as [|d ds IH]; [done|].
  unfold service.http_posts in *. cbn [foldl].
  by rewrite post_driver_unreadable.
Qed.



(** X2. When the condition object has no attribute [waiters], every
    [post_driver] raises [AttributeError] and changes nothing, so no report
    ever reaches the queue: a wait entered with an empty queue returns
    [None] whatever is posted meanwhile. *)
Theorem unreadable_waiters_lose_every_report
    timeout_seconds name sched (w : World) :
  exposes_waiters (_driver_condition w) = false →
  (∀ driver,
     service.post_driver driver w
     = (py.Raise (py.AttributeError
                    "'Condition' object has no attribute 'waiters'"), w))
  ∧ (_driver_queue w = [] →
     ∃ w', service._wait_for_driver_result timeout_seconds name sched w
           = (py.Ok None, w')
           ∧ _driver_queue w' = []).
Proof.
  intros Hexp. split; [intros; by apply post_driver_unreadable|].
  intros Hq. unfold service._wait_for_driver_result. unfold_monad.
  generalize (clock w + py.max timeout_seconds 0)%Q. intros deadline.
  revert w Hexp Hq. induction sched as [|e sched IH]; intros w Hexp Hq.
  - cbn. unfold_monad. rewrite Hq. cbn.
    destruct (Qle_bool _ _); [by eauto|].
    unfold service.condition_wait. cbn.
    eexists. split; [reflexivity|]. cbn.
    match goal with |- context [negb ?b] => by destruct (negb b) end.
  - cbn. unfold_monad. rewrite Hq. cbn.
    destruct (Qle_bool _ _); [by eauto|].
    unfold service.condition_wait.
    rewrite http_posts_unreadable by done.
    match goal with |- context [negb ?b] => destruct (negb b) end;
      cbn; apply IH; done.
Qed.

Lemma unreadable_waiters_witness :
  exposes_waiters (_driver_condition sample.world_no_attribute) = false
  ∧ service.post_driver (Some "chrome") sample.world_no_attribute
    = (py.Raise (py.AttributeError
                   "'Condition' object has no attribute 'waiters'"),
       sample.world_no_attribute).
Proof.
  split; [reflexivity|].
  exact (proj1 (unreadable_waiters_lose_every_report 20 "chrome" []
                  sample.world_no_attribute eq_refl) (Some "chrome")).
Defined.

(** X3. The endpoint [post_driver] of the router answers with success or
    with status 500 and nothing else: it succeeds exactly when the service
    could read the waiters, and it leaves the world as the service left
    it. *)
Theorem router_post_driver_answers (driver : string) (w : World) :
  let r := router.post_driver driver w in
  r.2 = (service.post_driver (Some driver) w).2
  ∧ (r.1 = py.Ok tt
     ∨ r.1 = py.Raise (py.HTTPException 500
                         "Error in posting driver name for scoring"))
  ∧ (r.1 = py.Ok tt ↔ exposes_waiters (_driver_condition w) = true).
Proof.
  unfold router.post_driver, service.post_driver, service.condition_waiters,
    service.condition_notify.
  unfold_monad. cbn.
  destruct (exposes_waiters (_driver_condition w)); cbn.
  - destruct (cv_waiters (_driver_condition w)); cbn;
      (split; [done|]; split; [by left|done]).
  - split; [done|]. split; [by right|]. done.
Qed.




Lemma max_zero_nonneg (t : Q) : (0 <= py.max t 0)%Q.
Proof.
  unfold py.max. destruct (Qle_bool 0 t) eqn:Ht; [|lra].
  by apply Qle_bool_iff.
Qed.

(** X5. A timeout that is not positive does not block: with an empty queue
    the wait returns [None] at once and leaves the world as it is, whatever
    the other threads would post; nobody is registered as a waiter. *)
Theorem wait_without_time_does_not_block timeout_seconds name sched (w : World) :
  (timeout_seconds <= 0)%Q →
  _driver_queue w = [] →
  service._wait_for_driver_result timeout_seconds name sched w = (py.Ok None, w).
Proof.
  intros Ht Hq. unfold service._wait_for_driver_result. unfold_monad.
  assert (Qle_bool (clock w + py.max timeout_seconds 0 - clock w) 0 = true) as Hrem.
  { apply Qle_bool_iff. unfold py.max.
    destruct (Qle_bool 0 timeout_seconds); lra. }
  destruct sched; cbn; unfold_monad; rewrite Hq; cbn; by rewrite Hrem.
Qed.

Lemma wait_without_time_witness :
  (0 <= 0)%Q ∧ _driver_queue sample.world0 = []
  ∧ service._wait_for_driver_result 0 "chrome"
      [ {| service.ep_posts := [Some "chrome"]; service.ep_woken_after := 1 |} ]
      sample.world0 = (py.Ok None, sample.world0).
Proof.
  split; [apply Qle_refl|]. split; [reflexivity|].
  exact (wait_without_time_does_not_block 0 "chrome" _ sample.world0
           (Qle_refl 0) eq_refl).
Defined.

Lemma condition_wait_no_posts_clock (timeout : Q) (e : service.Episode) (w : World) :
  service.ep_posts e = [] →
  clock (service.condition_wait timeout e w).2 = (clock w + timeout)%Q.
Proof.
  intros Hquiet. unfold service.condition_wait, service.http_posts.
  rewrite Hquiet. cbn.
  rewrite bool_decide_eq_true_2 by (apply elem_of_app; right; apply list_elem_of_here).
  done.
Qed.

Lemma wait_loop_quiet_clock deadline sched w :
  _driver_queue w = [] →
  Forall (λ e, service.ep_posts e = []) sched →
  ∃ w', service.wait_loop deadline sched w = (py.Ok None, w')
        ∧ if Qle_bool (deadline - clock w) 0 then w' = w
          else (clock w' == deadline)%Q.
Proof.
  intros Hq Hquiet. revert w Hq.
  induction Hquiet as [|e sched He _ IH]; intros w Hq.
  - cbn. unfold_monad. rewrite Hq. cbn.
    destruct (Qle_bool _ _); [by eauto|].
    pose proof (condition_wait_no_posts_clock (deadline - clock w) service.quiet w
                  eq_refl) as Hclock.
    destruct (condition_wait_keeps (deadline - clock w) service.quiet w)
      as ([gotit Hr] & _).
    destruct (service.condition_wait _ service.quiet w) as [r w1].
    cbn in Hr, Hclock; subst r. eexists. split; [done|].
    rewrite Hclock. ring.
  - cbn. unfold_monad. rewrite Hq. cbn.
    destruct (Qle_bool _ _); [by eauto|].
    pose proof (condition_wait_no_posts_clock (deadline - clock w) e w He) as Hclock.
    pose proof (condition_wait_no_posts (deadline - clock w) e w He) as Hq1.
    destruct (condition_wait_keeps (deadline - clock w) e w) as ([gotit Hr] & _).
    destruct (service.condition_wait _ e w) as [r w1].
    cbn in Hr, Hclock, Hq1; subst r.
    destruct (IH w1) as (w' & Hloop & Hw'); [by rewrite Hq1|].
    exists w'. split; [done|].
    assert (Qle_bool (deadline - clock w1) 0 = true) as Hend
      by (rewrite Hclock; apply Qle_bool_iff; lra).
    rewrite Hend in Hw'. subst w'. rewrite Hclock. ring.
Qed.

(** X6. A wait during which nobody posts lasts as long as its timeout, a
    negative timeout counting as none: it returns [None] with the clock
    advanced by [max(timeout_seconds, 0)], the queue still empty, and the
    recorded outcomes and the engine untouched. *)
Theorem wait_without_report_lasts_its_timeout
    timeout_seconds name sched (w : World) :
  _driver_queue w = [] →
  Forall (λ e, service.ep_posts e = []) sched →
  ∃ w', service._wait_for_driver_result timeout_seconds name sched w
        = (py.Ok None, w')
        ∧ (clock w' == clock w + py.max timeout_seconds 0)%Q
        ∧ _driver_queue w' = []
        ∧ detection_dict w' = detection_dict w
        ∧ docker_log w' = docker_log w.
Proof.
  intros Hq Hquiet.
  destruct (wait_returns timeout_seconds name sched w)
    as (r & w'' & Hw & _ & _ & Hdd & Hlog).
  unfold service._wait_for_driver_result in *. unfold_monad.
  destruct (wait_loop_quiet_clock (clock w + py.max timeout_seconds 0) sched w
              Hq Hquiet) as (w' & Hloop & Hclock).
  destruct (wait_loop_quiet (clock w + py.max timeout_seconds 0) sched w
              Hq Hquiet) as (w3 & Hloop3 & Hq3).
  rewrite Hloop in Hw, Hloop3. injection Hw as <- <-. injection Hloop3 as <-.
  exists w'. split; [done|]. split; [|done].
  destruct (Qle_bool _ 0) eqn:Hrem.
  - subst w'. apply Qle_bool_iff in Hrem.
    pose proof (max_zero_nonneg timeout_seconds). lra.
  - done.
Qed.

Lemma wait_without_report_witness :
  _driver_queue sample.world0 = []
  ∧ Forall (λ e, service.ep_posts e = []) [service.quiet]
  ∧ ∃ w', service._wait_for_driver_result 20 "chrome" [service.quiet] sample.world0
          = (py.Ok None, w')
          ∧ (clock w' == clock sample.world0 + py.max 20 0)%Q.
Proof.
  assert (Forall (λ e, service.ep_posts e = []) [service.quiet]) as Hquiet
    by (repeat constructor).
  split; [reflexivity|]. split; [exact Hquiet|].
  destruct (wait_without_report_lasts_its_timeout 20 "chrome" [service.quiet]
              sample.world0 eq_refl Hquiet) as (w' & Hw & Hclock & _).
  exists w'. split; [exact Hw|exact Hclock].
Defined.




(** ** The aggregation of [score] *)

Section dict_groups.
Context `{Countable K} {A : Type}.
Implicit Types (d : gmap K (list A)) (k : K) (x : A).

Lemma foldl_dict_append_lookup (key : A → K) (l : list A) d k :
  default [] (foldl (λ d x, py.dict_append (key x) x d) d l !! k)
  = default [] (d !! k) ++ filter (λ x, key x = k) l.
Proof.
  revert d. induction l as [|x l IH]; intros d.
  - cbn. by rewrite (right_id_L [] (++)).
  - cbn [foldl]. rewrite IH, filter_cons.
    destruct (decide (key x = k)) as [<-|Hne].
    + rewrite dict_append_lookup. cbn. by rewrite <- (assoc_L (++)).
    + by rewrite dict_append_lookup_ne.
Qed.

Lemma foldl_dict_append_nonempty (key : A → K) (l : list A) d :
  map_Forall (λ _ group, group ≠ []) d →
  map_Forall (λ _ group, group ≠ [])
    (foldl (λ d x, py.dict_append (key x) x d) d l).
Proof.
  revert d. induction l as [|x l IH]; intros d Hd; [done|].
  cbn [foldl]. apply IH. unfold py.dict_append.
  apply map_Forall_insert_2; [|done]. by destruct (default [] (d !! key x)).
Qed.
End dict_groups.

Lemma regroup_lookup (dd : gmap nat (list Detection)) (name : string) :
  default [] (service.regroup dd !! name)
  = filter (λ o, driver o = name) (spec.outcomes dd).
Proof.
  unfold service.regroup, spec.outcomes, py.values, py.items.
  generalize (map_to_list dd). intros its.
  assert (∀ fr : gmap string (list Detection),
            default []
              (foldl (λ framework_results '(index, results),
                        foldl (λ framework_results result,
                                 py.dict_append (driver result) result
                                   framework_results)
                              framework_results results) fr its !! name)
            = default [] (fr !! name)
              ++ filter (λ o, driver o = name) (mjoin its.*2)) as Hgen.
  { induction its as [|[index results] its IH]; intros fr.
    - cbn. by rewrite (right_id_L [] (++)).
    - cbn [foldl]. rewrite IH, foldl_dict_append_lookup. cbn.
      by rewrite filter_app, (assoc_L (++)). }
  by rewrite Hgen, lookup_empty.
Qed.

Lemma regroup_nonempty (dd : gmap nat (list Detection)) :
  map_Forall (λ _ group, group ≠ []) (service.regroup dd).
Proof.
  unfold service.regroup, py.items. generalize (map_to_list dd). intros its.
  assert (∀ fr : gmap string (list Detection),
            map_Forall (λ _ group, group ≠ []) fr →
            map_Forall (λ _ group, group ≠ [])
              (foldl (λ framework_results '(index, results),
                        foldl (λ framework_results result,
                                 py.dict_append (driver result) result
                                   framework_results)
                              framework_results results) fr its)) as Hgen.
  { induction its as [|[index results] its IH]; intros fr Hfr; [done|].
    cbn [foldl]. apply IH. by apply foldl_dict_append_nonempty. }
  apply Hgen, map_Forall_empty.
Qed.

(** X8. Regrouping the results by driver loses nothing and mixes nothing:
    the group of a name holds exactly the recorded outcomes of that driver,
    no group is empty, and every recorded outcome is in the group of its
    driver. *)
Theorem regroup_groups_by_driver (dd : gmap nat (list Detection)) :
  (∀ name, default [] (service.regroup dd !! name)
           = filter (λ o, driver o = name) (spec.outcomes dd))
  ∧ (∀ name results, service.regroup dd !! name = Some results →
       results ≠ [] ∧ Forall (λ o, driver o = name) results)
  ∧ (∀ o, o ∈ spec.outcomes dd →
       ∃ results, service.regroup dd !! driver o = Some results ∧ o ∈ results).
Proof.
  split; [apply regroup_lookup|]. split.
  - intros name results Hname. split; [by apply (regroup_nonempty dd name)|].
    pose proof (regroup_lookup dd name) as Hl. rewrite Hname in Hl. cbn in Hl.
    rewrite Hl. apply Forall_forall. intros o Ho.
    by apply list_elem_of_filter in Ho as [? _].
  - intros o Ho.
    assert (o ∈ default [] (service.regroup dd !! driver o)) as Hin
      by (rewrite regroup_lookup; by apply list_elem_of_filter).
    destruct (service.regroup dd !! driver o) as [results|]; [by eauto|].
    by apply elem_of_nil in Hin.
Qed.

Lemma length_filter_join {A : Type} (P : A → Prop) `{∀ x, Decision (P x)}
    (ls : list (list A)) :
  length (filter P (mjoin ls)) = sum_list ((λ l, length (filter P l)) <$> ls).
Proof.
  induction ls as [|l ls IH]; [done|].
  change (mjoin (l :: ls)) with (l ++ mjoin ls).
  rewrite filter_app, length_app, IH. done.
Qed.

(** X9. The figures logged per framework are consistent with the score: no
    group is empty, so the success rate is always the quotient of its two
    counts and lies between 0 and 1; and over all frameworks the successful
    detections and the totals add up to the numerator and the denominator
    of the final score. *)
Theorem framework_figures_add_up (dd : gmap nat (list Detection)) :
  (∀ name results, service.regroup dd !! name = Some results →
     0 < service.total_count results
     ∧ service.success_count results ≤ service.total_count results
     ∧ service.success_rate results
       = py.truediv (service.success_count results) (service.total_count results)
     ∧ (0 <= service.success_rate results)%Q
     ∧ (service.success_rate results <= 1)%Q)
  ∧ sum_list (service.success_count <$> py.values (service.regroup dd))
    = (service.tally (service.regroup dd)).2
  ∧ sum_list (service.total_count <$> py.values (service.regroup dd))
    = (service.tally (service.regroup dd)).1.
Proof.
  split; [|split].
  - intros name results Hname.
    pose proof (regroup_nonempty dd name results Hname) as Hne.
    assert (service.success_count results ≤ service.total_count results) as Hle
      by apply length_filter.
    destruct results as [|r results]; [done|].
    assert (0 < service.total_count (r :: results)) as Hpos by (cbn; lia).
    split; [done|]. split; [done|]. split; [done|].
    unfold service.success_rate. by apply truediv_bounds.
  - unfold service.tally. rewrite tally_foldl. cbn [fst snd Nat.add].
    by rewrite length_filter_join.
  - unfold service.tally. rewrite tally_foldl. cbn [fst snd Nat.add].
    by rewrite length_join.
Qed.

Lemma truediv_eq_1 (successful total : nat) :
  0 < total → (py.truediv successful total == 1)%Q ↔ successful = total.
Proof.
  intros Hpos. destruct total as [|n]; [lia|].
  unfold py.truediv, Qeq, Qdiv, Qmult, Qinv, inject_Z.
  cbn -[Z.mul Z.of_nat Pos.mul]. destruct (Z.of_nat (S n)) eqn:Hn; try lia.
  cbn -[Z.mul Z.of_nat Pos.mul]. lia.
Qed.

Lemma truediv_eq_0 (successful total : nat) :
  0 < total → (py.truediv successful total == 0)%Q ↔ successful = 0.
Proof.
  intros Hpos. destruct total as [|n]; [lia|].
  unfold py.truediv, Qeq, Qdiv, Qmult, Qinv, inject_Z.
  cbn -[Z.mul Z.of_nat Pos.mul]. destruct (Z.of_nat (S n)) eqn:Hn; try lia.
  cbn -[Z.mul Z.of_nat Pos.mul]. lia.
Qed.

(** X10. The score of a completed run is 1 exactly when at least one
    outcome is recorded and all of them are matched, and 0 exactly when no
    outcome is matched. *)
Theorem score_extremes cfg env (w : World) (s : Q) (w' : World) :
  service.score cfg env w = (py.Ok s, w') →
  let dd := detection_dict w' in
  ((s == 1)%Q ↔ 0 < spec.recorded dd ∧ spec.matched dd = spec.recorded dd)
  ∧ ((s == 0)%Q ↔ spec.matched dd = 0).
Proof.
  intros Hscore dd.
  destruct (score_records cfg env w s w' Hscore) as (_ & _ & _ & ->).
  fold dd. unfold service.final_score.
  pose proof (matched_le_recorded dd) as Hle.
  destruct (0 <? spec.recorded dd) eqn:Hpos.
  - apply Nat.ltb_lt in Hpos.
    rewrite truediv_eq_1, truediv_eq_0 by done. split; [|done].
    split; [by intros ->|by intros [_ ?]].
  - apply Nat.ltb_ge in Hpos. split.
    + split; [intros Heq; symmetry in Heq; by apply Q_apart_0_1 in Heq|lia].
    + split; [lia|done].
Qed.

Lemma score_extremes_witness :
  let w' := (service.score (sample.config [sample.chrome] 4)
               sample.run_chrome sample.world0).2 in
  service.score (sample.config [sample.chrome] 4) sample.run_chrome sample.world0
  = (py.Ok (4 # 4)%Q, w')
  ∧ ((4 # 4 == 1)%Q ↔ 0 < spec.recorded (detection_dict w')
                     ∧ spec.matched (detection_dict w')
                       = spec.recorded (detection_dict w')).
Proof.
  intros w'.
  assert (service.score (sample.config [sample.chrome] 4) sample.run_chrome
            sample.world0 = (py.Ok (4 # 4)%Q, w')) as Hrun
    by (vm_compute; reflexivity).
  split; [exact Hrun|].
  exact (proj1 (score_extremes _ _ _ _ _ Hrun)).
Defined.

(** ** The scoring run, further *)

Lemma occurrences_repeated (name : string) (n : nat) (fs : list FrameworkEntry) :
  spec.occurrences name (spec.repeated n fs) = n * spec.occurrences name fs.
Proof.
  unfold spec.occurrences, spec.repeated. induction n as [|n IH]; [done|].
  cbn [replicate].
  change (mjoin (fs :: replicate n fs)) with (fs ++ mjoin (replicate n fs)).
  rewrite filter_app, length_app, IH. done.
Qed.

(** X11. With no framework configured, or with a repetition count that is
    not positive, the trial sequence is empty; a run whose setup succeeds
    then returns 0, records nothing and calls the engine not once. *)
Theorem score_without_trials cfg env (w : World) :
  framework_images cfg = [] ∨ (repeated_framework_count cfg ≤ 0)%Z →
  utils.gen_ran_framework_sequence cfg (service.draws env) = []
  ∧ (service.copy_outcome env = py.Ok tt →
     service.from_env env = py.Ok tt →
     service.score cfg env w
     = (py.Ok 0%Q, set_driver_queue [] (set_detection_dict ∅ w))).
Proof.
  intros Hnone.
  assert (utils.gen_ran_framework_sequence cfg (service.draws env) = []) as Hfs.
  { apply nil_length_inv.
    unfold utils.gen_ran_framework_sequence.
    rewrite shuffle_permutation, repeated_frameworks_eq, length_repeated.
    destruct Hnone as [-> | Hcount]; [cbn; lia|].
    replace (Z.to_nat (repeated_framework_count cfg)) with 0 by lia. done. }
  split; [done|]. intros Hcopy Henv.
  rewrite score_cases, Hcopy, Henv, Hfs. cbn.
  unfold spec.recorded, spec.matched, spec.outcomes, py.values.
  by rewrite map_to_list_empty.
Qed.

Lemma score_without_trials_witness :
  (framework_images (sample.config [sample.chrome] (-1)) = []
   ∨ (repeated_framework_count (sample.config [sample.chrome] (-1)) ≤ 0)%Z)
  ∧ utils.gen_ran_framework_sequence (sample.config [sample.chrome] (-1))
      (service.draws sample.run_chrome) = [].
Proof.
  assert (framework_images (sample.config [sample.chrome] (-1)) = []
          ∨ (repeated_framework_count (sample.config [sample.chrome] (-1)) ≤ 0)%Z)
    as Hnone by (right; unfold sample.config; simpl; lia).
  split; [exact Hnone|].
  exact (proj1 (score_without_trials (sample.config [sample.chrome] (-1))
                  sample.run_chrome sample.world0 Hnone)).
Defined.

(** X12. The human trial depends neither on the human trigger nor on the
    container engine: whether the trigger raises or not, and whatever the
    engine would answer, the trial does the same, and it makes no call to
    the engine. *)
Theorem human_trial_ignores_trigger_and_engine
    cfg index fe (te te' : service.TrialEnv) (w : World) :
  framework_name fe = "human" →
  service.early_posts te = service.early_posts te' →
  service.schedule te = service.schedule te' →
  service.run_trial cfg index fe te w = service.run_trial cfg index fe te' w
  ∧ docker_log (service.run_trial cfg index fe te w).2 = docker_log w.
Proof.
  intros Hhuman Hposts Hsched. split.
  - unfold service.run_trial, service.trial_body, service._clear_driver_queue.
    unfold_monad. cbn. rewrite !bool_decide_eq_true_2 by done.
    rewrite Hposts, Hsched.
    by destruct (service.pushcut_execute te) as [[]|?],
                (service.pushcut_execute te') as [[]|?].
  - rewrite run_trial_docker_log. by rewrite bool_decide_eq_true_2.
Qed.

Lemma human_trial_ignores_trigger_witness :
  framework_name sample.human = "human"
  ∧ service.early_posts (sample.trial_trigger_fails [Some "human"])
    = service.early_posts (sample.trial_trigger_works [Some "human"])
  ∧ service.schedule (sample.trial_trigger_fails [Some "human"])
    = service.schedule (sample.trial_trigger_works [Some "human"])
  ∧ service.run_trial (sample.config [sample.human] 1) 0 sample.human
      (sample.trial_trigger_fails [Some "human"]) sample.world0
    = service.run_trial (sample.config [sample.human] 1) 0 sample.human
        (sample.trial_trigger_works [Some "human"]) sample.world0.
Proof.
  split; [reflexivity|]. split; [reflexivity|]. split; [reflexivity|].
  exact (proj1 (human_trial_ignores_trigger_and_engine
                  (sample.config [sample.human] 1) 0 sample.human
                  (sample.trial_trigger_fails [Some "human"])
                  (sample.trial_trigger_works [Some "human"])
                  sample.world0 eq_refl eq_refl eq_refl)).
Defined.

Lemma run_trial_matched_predicts cfg index fe te (w : World) :
  ∃ o w',
    service.run_trial cfg index fe te w = (py.Ok tt, w')
    ∧ detection_dict w' = py.dict_append index o (detection_dict w)
    ∧ driver o = framework_name fe
    ∧ (detected o = true → predicted o = driver o).
Proof.
  destruct (run_trial_records cfg index fe te w)
    as (o & w' & Hrun & Hdd & Hdrv & Hiff & Herr & Hpred).
  exists o, w'. split; [done|]. split; [done|]. split; [done|].
  intros Hd. apply Hiff in Hd.
  destruct (service.trial_body cfg index fe te w) as [[[]|err] w2] eqn:Hbody.
  - by rewrite (Hpred w2 eq_refl), Hd, Hdrv.
  - rewrite (Herr err w2 eq_refl) in Hiff.
    destruct Hiff as [_ Hiff]. by specialize (Hiff Hd).
Qed.

Lemma run_trials_outcomes cfg env fs : ∀ index w,
  ∃ w' os,
    service.run_trials cfg env index fs w = (py.Ok tt, w')
    ∧ spec.outcomes (detection_dict w') ≡ₚ os ++ spec.outcomes (detection_dict w)
    ∧ Forall2 (λ fe o, driver o = framework_name fe
                       ∧ (detected o = true → predicted o = driver o)) fs os.
Proof.
  induction fs as [|fe fs IH]; intros index w.
  - exists w, []. by repeat split.
  - destruct (run_trial_matched_predicts cfg index fe (env index) w)
      as (o & w1 & Hrun & Hdd & Hdrv & Hpred).
    destruct (IH (S index) w1) as (w' & os & Hrest & Hperm & Hall).
    exists w', (o :: os). cbn [service.run_trials]. unfold bind. rewrite Hrun.
    split; [done|]. split; [|by constructor].
    rewrite Hperm, Hdd. unfold spec.outcomes.
    rewrite dict_append_elements. cbn. by rewrite <- Permutation_middle.
Qed.

Lemma score_outcomes cfg env (w : World) (s : Q) (w' : World) :
  service.score cfg env w = (py.Ok s, w') →
  ∃ os,
    spec.outcomes (detection_dict w') ≡ₚ os
    ∧ Forall2 (λ fe o, driver o = framework_name fe
                       ∧ (detected o = true → predicted o = driver o))
        (utils.gen_ran_framework_sequence cfg (service.draws env)) os.
Proof.
  intros Hscore. rewrite score_cases in Hscore.
  destruct (service.copy_outcome env) as [[]|]; [|done].
  destruct (service.from_env env) as [[]|]; [|done].
  destruct (run_trials_outcomes cfg (service.trial_env env)
              (utils.gen_ran_framework_sequence cfg (service.draws env)) 0
              (set_driver_queue [] (set_detection_dict ∅ w)))
    as (w1 & os & Hrun & Hperm & Hall).
  rewrite Hrun in Hscore. cbn in Hscore. injection Hscore as _ <-.
  exists os. split; [|done]. cbn. rewrite Hperm. cbn.
  unfold spec.outcomes, py.values. rewrite map_to_list_empty. cbn.
  by rewrite (right_id_L [] (++)).
Qed.

Lemma score_driver_names cfg env (w : World) (s : Q) (w' : World) :
  service.score cfg env w = (py.Ok s, w') →
  driver <$> spec.outcomes (detection_dict w')
  ≡ₚ framework_name <$> utils.gen_ran_framework_sequence cfg (service.draws env).
Proof.
  intros Hscore.
  destruct (score_outcomes cfg env w s w' Hscore) as (os & Hperm & Hall).
  rewrite Hperm.
  assert (driver <$> os
          = framework_name
              <$> utils.gen_ran_framework_sequence cfg (service.draws env)) as ->;
    [|done].
  apply list_eq. intros i. rewrite !list_lookup_fmap.
  destruct (os !! i) as [o|] eqn:Ho.
  - destruct (Forall2_lookup_r _ _ _ _ _ Hall Ho) as (fe & -> & Hdrv & _).
    cbn. by rewrite Hdrv.
  - apply Forall2_length in Hall.
    apply lookup_ge_None in Ho. rewrite <- Hall in Ho.
    apply lookup_ge_None in Ho. by rewrite Ho.
Qed.

(** X13. After a completed run every matched outcome predicts its own
    driver, and the drivers of the recorded outcomes are, up to their order,
    the names of the trial sequence. *)
Theorem recorded_outcomes_follow_the_sequence
    cfg env (w : World) (s : Q) (w' : World) :
  service.score cfg env w = (py.Ok s, w') →
  Forall (λ o, detected o = true → predicted o = driver o)
    (spec.outcomes (detection_dict w'))
  ∧ driver <$> spec.outcomes (detection_dict w')
    ≡ₚ framework_name <$> utils.gen_ran_framework_sequence cfg (service.draws env).
Proof.
  intros Hscore. split; [|by apply (score_driver_names cfg env w s)].
  destruct (score_outcomes cfg env w s w' Hscore) as (os & Hperm & Hall).
  rewrite Hperm. apply Forall_forall. intros o Ho.
  apply list_elem_of_lookup in Ho as [i Hi].
  destruct (Forall2_lookup_r _ _ _ _ _ Hall Hi) as (fe & _ & _ & Hpred). done.
Qed.

Lemma recorded_outcomes_follow_witness :
  let w' := (service.score (sample.config [sample.chrome] 4)
               sample.run_three_of_four sample.world0).2 in
  service.score (sample.config [sample.chrome] 4) sample.run_three_of_four
    sample.world0 = (py.Ok (3 # 4)%Q, w')
  ∧ Forall (λ o, detected o = true → predicted o = driver o)
      (spec.outcomes (detection_dict w')).
Proof.
  intros w'.
  assert (service.score (sample.config [sample.chrome] 4)
            sample.run_three_of_four sample.world0 = (py.Ok (3 # 4)%Q, w')) as Hrun
    by (vm_compute; reflexivity).
  split; [exact Hrun|].
  exact (proj1 (recorded_outcomes_follow_the_sequence _ _ _ _ _ Hrun)).
Defined.

Lemma occurrences_sequence cfg (draws : nat → nat) (name : string) :
  spec.occurrences name (utils.gen_ran_framework_sequence cfg draws)
  = Z.to_nat (repeated_framework_count cfg)
    * spec.occurrences name (framework_images cfg).
Proof.
  unfold utils.gen_ran_framework_sequence.
  rewrite <- occurrences_repeated, <- repeated_frameworks_eq.
  unfold spec.occurrences. by rewrite shuffle_permutation.
Qed.

(** X15. The trial sequence is balanced: every name occurs in it the
    repetition count times as often as among the configured frameworks (not
    at all when the count is negative), so that a framework configured once
    is tried exactly that many times. *)
Theorem trial_sequence_is_balanced cfg (draws : nat → nat) (name : string) :
  spec.occurrences name (utils.gen_ran_framework_sequence cfg draws)
  = Z.to_nat (repeated_framework_count cfg)
    * spec.occurrences name (framework_images cfg)
  ∧ (spec.occurrences name (framework_images cfg) = 1 →
     (0 ≤ repeated_framework_count cfg)%Z →
     Z.of_nat (spec.occurrences name (utils.gen_ran_framework_sequence cfg draws))
     = repeated_framework_count cfg).
Proof.
  split; [apply occurrences_sequence|].
  intros Hone Hcount. rewrite occurrences_sequence, Hone. lia.
Qed.

Lemma length_filter_fmap {A B : Type} `{EqDecision B} (f : A → B) (b : B)
    (l : list A) :
  length (filter (λ x, f x = b) l) = length (filter (λ y, y = b) (f <$> l)).
Proof.
  induction l as [|x l IH]; [done|].
  cbn [fmap list_fmap]. rewrite !filter_cons.
  destruct (decide (f x = b)); cbn; by rewrite IH.
Qed.

(** X16. After a completed run the group of every framework holds as many
    results as the framework has trials: the repetition count times its
    number of entries in the configuration. *)
Theorem every_framework_has_its_results
    cfg env (w : World) (s : Q) (w' : World) (name : string) :
  service.score cfg env w = (py.Ok s, w') →
  service.total_count
    (default [] (service.regroup (detection_dict w') !! name))
  = Z.to_nat (repeated_framework_count cfg)
    * spec.occurrences name (framework_images cfg).
Proof.
  intros Hscore.
  pose proof (score_driver_names cfg env w s w' Hscore) as Hnames.
  rewrite <- (occurrences_sequence cfg (service.draws env) name).
  unfold service.total_count, spec.occurrences.
  rewrite regroup_lookup.
  rewrite (length_filter_fmap driver), (length_filter_fmap framework_name).
  by rewrite Hnames.
Qed.

Lemma every_framework_has_its_results_witness :
  let cfg := sample.config [sample.chrome; sample.firefox; sample.human] 2 in
  let w' := (service.score cfg sample.run_chrome sample.world0).2 in
  service.score cfg sample.run_chrome sample.world0 = (py.Ok (2 # 6)%Q, w')
  ∧ service.total_count
      (default [] (service.regroup (detection_dict w') !! "firefox"))
    = Z.to_nat (repeated_framework_count cfg)
      * spec.occurrences "firefox" (framework_images cfg).
Proof.
  intros cfg w'.
  assert (service.score cfg sample.run_chrome sample.world0
          = (py.Ok (2 # 6)%Q, w')) as Hrun by (vm_compute; reflexivity).
  split; [exact Hrun|].
  exact (every_framework_has_its_results cfg sample.run_chrome sample.world0
           _ _ "firefox" Hrun).
Defined.

(** ** The engine over a run *)






(** ** The container runner, further *)

(** X17. The removal by name that precedes the launch cannot fail the
    runner: [stop_container] always returns normally, and the runner does
    the same whether the [docker rm -f] went through or raised. *)
Theorem failed_removal_by_name_is_ignored
    cfg rt (answer : py.result unit) image_name container_name network_name
    ulimit (w : World) :
  (utils.stop_container rt container_name w).1 = py.Ok tt
  ∧ utils.run_bot_container cfg (spec.set_docker_rm answer rt) image_name
      container_name network_name ulimit w
    = utils.run_bot_container cfg (spec.set_docker_rm (py.Ok tt) rt) image_name
        container_name network_name ulimit w.
Proof.
  split.
  - unfold utils.stop_container, utils.call. unfold_monad.
    by destruct (utils.docker_rm rt) as [[]|].
  - unfold utils.run_bot_container, utils.stop_container, utils.call,
      spec.set_docker_rm.
    unfold_monad.
    destruct rt as [nl nc ng ins ipf ipn drm crun secs cwait cstop cremove]; cbn.
    destruct nl as [[]|]; cbn; [destruct ng|destruct nc|]; cbn; try done;
      (destruct ins as [[??]|]; cbn; [|done]);
      (destruct ipf; cbn; [|done]);
      (destruct ipn; cbn; [|done]);
      by destruct answer as [[]|].
Qed.



Lemma runs_app (l k : list docker_call) :
  spec.runs (l ++ k) = spec.runs l + spec.runs k.
Proof. unfold spec.runs. by rewrite List.filter_app, length_app. Qed.

(** X19. The runner tries to start a container once, and only after the
    network has been found or created and inspected and both packet filter
    rules have been applied without an exception: when one of these steps
    raises, the runner raises, no container is started and no time has
    passed. *)
Theorem no_container_without_isolation
    cfg rt image_name container_name network_name ulimit (w : World) :
  let r := utils.run_bot_container cfg rt image_name container_name
             network_name ulimit w in
  ∃ calls,
    docker_log r.2 = docker_log w ++ calls
    ∧ spec.runs calls = (if spec.setup_ok rt then 1 else 0)
    ∧ (spec.setup_ok rt = false → (∃ err, r.1 = py.Raise err) ∧ clock r.2 = clock w).
Proof.
  unfold utils.run_bot_container, utils.stop_container, utils.call, spec.setup_ok.
  unfold_monad.
  destruct_runtime rt;
    try (destruct cwait as [|[]]; cbn; destruct cstop; cbn; destruct cremove; cbn);
    (eexists; split; [rewrite <- ?(assoc_L (++)); reflexivity|]); cbn;
    (split; [done|]); try done; intros _; (split; [by eauto|done]).
Qed.

(** ** Reports posted outside the waits *)

Lemma run_trials_unregisters cfg env fs : ∀ index w,
  cv_waiters (_driver_condition w) = [] →
  cv_waiters (_driver_condition (service.run_trials cfg env index fs w).2) = [].
Proof.
  induction fs as [|fe fs IH]; intros index w Hws; [done|].
  cbn [service.run_trials]. unfold bind.
  pose proof (run_trial_unregisters cfg index fe (env index) w Hws) as Hws1.
  destruct (run_trial_records cfg index fe (env index) w) as (o & w1 & Hrun & _).
  rewrite Hrun in Hws1 |- *. by apply IH.
Qed.

Lemma run_trials_ignore_stale_posts cfg env fs : ∀ index w,
  cv_waiters (_driver_condition w) = [] →
  service.run_trials cfg env index fs w
  = service.run_trials cfg (λ i, spec.without_early_posts (env i)) index fs w.
Proof.
  induction fs as [|fe fs IH]; intros index w Hws; [done|].
  cbn [service.run_trials]. unfold bind.
  rewrite <- trial_ignores_stale_posts by done.
  pose proof (run_trial_unregisters cfg index fe (env index) w Hws) as Hws1.
  destruct (run_trial_records cfg index fe (env index) w) as (o & w1 & Hrun & _).
  rewrite Hrun in Hws1 |- *. by apply IH.
Qed.

(** X20. A run entered with nobody registered on the condition ends with
    nobody registered and an empty queue, so that every driver posted after
    it, before the next wait, is dropped and leaves the world as the run
    left it. *)
Theorem reports_after_a_run_are_dropped cfg env drivers (w : World) :
  cv_waiters (_driver_condition w) = [] →
  let w' := (service.score cfg env w).2 in
  cv_waiters (_driver_condition w') = []
  ∧ _driver_queue w' = []
  ∧ service.http_posts drivers w' = w'.
Proof.
  intros Hws w'.
  assert (cv_waiters (_driver_condition w') = []) as Hws'.
  { subst w'. rewrite score_cases.
    destruct (service.copy_outcome env) as [[]|]; [|done].
    destruct (service.from_env env) as [[]|]; [|done].
    cbn. by apply run_trials_unregisters. }
  split; [done|]. split; [|by apply http_posts_no_waiter].
  subst w'. rewrite score_cases.
  destruct (service.copy_outcome env) as [[]|]; [|done].
  by destruct (service.from_env env) as [[]|].
Qed.

Lemma reports_after_a_run_witness :
  let w' := (service.score (sample.config [sample.chrome] 1) sample.run_chrome
               sample.world0).2 in
  cv_waiters (_driver_condition sample.world0) = []
  ∧ service.http_posts [Some "chrome"; Some "firefox"] w' = w'.
Proof.
  intros w'. split; [reflexivity|].
  exact (proj2 (proj2 (reports_after_a_run_are_dropped
                         (sample.config [sample.chrome] 1) sample.run_chrome
                         [Some "chrome"; Some "firefox"] sample.world0 eq_refl))).
Defined.

Lemma observed_without_posts cfg fe te (w : World) :
  cv_waiters (_driver_condition w) = [] →
  Forall (λ e, service.ep_posts e = []) (service.schedule te) →
  spec.observed cfg fe te w = None.
Proof.
  intros Hws Hquiet.
  unfold spec.observed, spec.before_wait, service._clear_driver_queue.
  unfold_monad. cbn.
  assert (∀ w1, _driver_queue w1 = [] →
            (let (r, _) := service._wait_for_driver_result (spec.wait_timeout cfg fe)
                             (framework_name fe) (service.schedule te) w1 in
             match r with py.Ok r0 => r0 | py.Raise _ => None end) = None) as Hwait.
  { intros w1 Hq1. unfold service._wait_for_driver_result. unfold_monad.
    destruct (wait_loop_quiet (clock w1 + py.max (spec.wait_timeout cfg fe) 0)
                (service.schedule te) w1 Hq1 Hquiet) as (w2 & -> & _). done. }
  case_bool_decide as Hhuman.
  - destruct (service.pushcut_execute te) as [[]|e]; cbn;
      rewrite http_posts_no_waiter by done; by apply Hwait.
  - pose proof (run_bot_container_frame cfg (service.runtime te) (image fe)
                  (framework_name fe) "local_network" (docker_ulimit cfg)
                  (set_driver_queue [] w)) as (_ & Hq1 & Hcond).
    destruct (utils.run_bot_container _ _ _ _ _ _ _) as [[[]|e] w1]; [|done].
    cbn in Hq1, Hcond. cbn.
    rewrite http_posts_no_waiter by (by rewrite Hcond). by apply Hwait.
Qed.

(** X21. Only a driver posted during the wait can match: a trial during
    whose wait nothing is posted records an unmatched outcome, whatever was
    posted earlier in the trial, while the human was being notified or the
    container was running. *)
Theorem trial_without_post_during_wait_is_unmatched
    cfg index fe te (w : World) :
  cv_waiters (_driver_condition w) = [] →
  Forall (λ e, service.ep_posts e = []) (service.schedule te) →
  ∃ o w',
    service.run_trial cfg index fe te w = (py.Ok tt, w')
    ∧ detection_dict w' = py.dict_append index o (detection_dict w)
    ∧ driver o = framework_name fe
    ∧ detected o = false.
Proof.
  intros Hws Hquiet.
  destruct (run_trial_records cfg index fe te w)
    as (o & w' & Hrun & Hdd & Hdrv & Hiff & _).
  exists o, w'. split; [done|]. split; [done|]. split; [done|].
  rewrite (observed_without_posts cfg fe te w Hws Hquiet) in Hiff.
  destruct (detected o); [|done]. destruct Hiff as [Hiff _].
  by specialize (Hiff eq_refl).
Qed.

Lemma trial_without_post_during_wait_witness :
  let te := sample.trial_posted_early sample.engine [Some "firefox"] in
  cv_waiters (_driver_condition sample.world0) = []
  ∧ Forall (λ e, service.ep_posts e = []) (service.schedule te)
  ∧ ∃ o w',
      service.run_trial (sample.config [sample.firefox] 1) 0 sample.firefox te
        sample.world0 = (py.Ok tt, w')
      ∧ detected o = false
      ∧ detection_dict w' = py.dict_append 0 o (detection_dict sample.world0).
Proof.
  intros te.
  assert (Forall (λ e, service.ep_posts e = []) (service.schedule te)) as Hquiet
    by constructor.
  split; [reflexivity|]. split; [exact Hquiet|].
  destruct (trial_without_post_during_wait_is_unmatched
              (sample.config [sample.firefox] 1) 0 sample.firefox te sample.world0
              eq_refl Hquiet) as (o & w' & Hrun & Hdd & _ & Hd).
  exists o, w'. split; [exact Hrun|]. split; [exact Hd|exact Hdd].
Defined.

(** X22. A run entered with nobody registered is not affected by the
    drivers posted outside the waits of its trials: it returns the same
    score and leaves the same world as the run in which none of them is
    posted. *)
Theorem run_ignores_reports_outside_waits cfg env (w : World) :
  cv_waiters (_driver_condition w) = [] →
  service.score cfg env w
  = service.score cfg (spec.run_without_early_posts env) w.
Proof.
  intros Hws. rewrite !score_cases. cbn.
  destruct (service.copy_outcome env) as [[]|]; [|done].
  destruct (service.from_env env) as [[]|]; [|done].
  by rewrite <- run_trials_ignore_stale_posts.
Qed.

Lemma run_ignores_reports_witness :
  cv_waiters (_driver_condition sample.world0) = []
  ∧ service.score (sample.config [sample.chrome; sample.firefox] 1)
      sample.run_chrome sample.world0
    = service.score (sample.config [sample.chrome; sample.firefox] 1)
        (spec.run_without_early_posts sample.run_chrome) sample.world0.
Proof.
  split; [reflexivity|].
  exact (run_ignores_reports_outside_waits
           (sample.config [sample.chrome; sample.firefox] 1) sample.run_chrome
           sample.world0 eq_refl).
Defined.
